(** * get_img: PDF page viewer with rectangular crop export

    Shallow embedding of the two versions of the Angular component
    [AppComponent]:

    - [Current]: the component with [currentPage]/[totalPages] and the bounds
      check inside [renderPage];
    - [Copy]: [app.component copy.ts], with [pageNum] and the guards inside
      the navigation methods.

    Conventions of the model.
    - JavaScript numbers that hold pixel offsets and page numbers are
      integers ([Z]); [Math.abs] is [Z.abs].
    - A canvas is its width, its height and its rows of RGBA pixels; reading
      outside the bitmap yields transparent black, as [getImageData] does.
    - A method of the component is a function from the component's state to
      the state after the method; the asynchronous steps ([FileReader.onload],
      [getDocument], [getPage], [render], [Image.onload]) are run to
      completion before the next handler.  An exception or a rejected promise
      ends the method with the state as it is at that point.
    - [document.body] is the list of nodes appended to it, the console the
      list of messages passed to [console.error]. *)

From Stdlib Require Import ZArith List Bool String Lia.
Import ListNotations.
Open Scope Z_scope.

(** ** Canvas bitmaps *)

Record Pixel := mkPixel { red : Z; green : Z; blue : Z; alpha : Z }.

Definition transparentBlack : Pixel := mkPixel 0 0 0 0.
Definition opaqueWhite : Pixel := mkPixel 255 255 255 255.
Definition opaqueRed : Pixel := mkPixel 255 0 0 255.

Record Canvas := mkCanvas { width : Z; height : Z; rows : list (list Pixel) }.

(** Row-major bitmap of [w] columns and [h] rows whose pixel at column [x],
    row [y] is [f x y]. *)
Definition raster (w h : Z) (f : Z -> Z -> Pixel) : list (list Pixel) :=
  map (fun j => map (fun i => f (Z.of_nat i) (Z.of_nat j)) (seq 0 (Z.to_nat w)))
      (seq 0 (Z.to_nat h)).

Definition inBounds (c : Canvas) (x y : Z) : bool :=
  (0 <=? x) && (x <? width c) && (0 <=? y) && (y <? height c).

Definition getPixel (c : Canvas) (x y : Z) : Pixel :=
  if inBounds c x y
  then nth (Z.to_nat x) (nth (Z.to_nat y) (rows c) []) transparentBlack
  else transparentBlack.

(** [document.createElement('canvas')] followed by assignments to [width] and
    [height]: assigning a dimension clears the bitmap. *)
Definition blankCanvas (w h : Z) : Canvas :=
  mkCanvas w h (raster w h (fun _ _ => transparentBlack)).

(** A canvas element whose dimensions were never assigned is 300 by 150. *)
Definition defaultCanvas : Canvas := blankCanvas 300 150.

(** [ctx.clearRect(0, 0, c.width, c.height)]. *)
Definition clearAll (c : Canvas) : Canvas := blankCanvas (width c) (height c).

(** [ctx.drawImage(src, 0, 0)] on [dst].  Both call sites draw on a canvas
    that has just been cleared, where source-over compositing leaves the
    source pixel. *)
Definition drawImage (src dst : Canvas) : Canvas :=
  mkCanvas (width dst) (height dst)
    (raster (width dst) (height dst)
       (fun x y => if inBounds src x y then getPixel src x y else getPixel dst x y)).

Record ImageData := mkImageData { iwidth : Z; iheight : Z; idata : list (list Pixel) }.

(** [ctx.getImageData(sx, sy, sw, sh)]: [None] stands for the IndexSizeError
    thrown when [sw] or [sh] is zero.  A negative extent selects the rectangle
    to the left of (above) the start point.  Pixels outside the canvas are
    transparent black. *)
Definition getImageData (c : Canvas) (sx sy sw sh : Z) : option ImageData :=
  if (sw =? 0) || (sh =? 0) then None
  else
    let x0 := Z.min sx (sx + sw) in
    let y0 := Z.min sy (sy + sh) in
    Some (mkImageData (Z.abs sw) (Z.abs sh)
            (raster (Z.abs sw) (Z.abs sh) (fun i j => getPixel c (x0 + i) (y0 + j)))).

(** [ctx.putImageData(img, 0, 0)] on [dst]. *)
Definition putImageData (img : ImageData) (dst : Canvas) : Canvas :=
  let src := mkCanvas (iwidth img) (iheight img) (idata img) in
  mkCanvas (width dst) (height dst)
    (raster (width dst) (height dst)
       (fun x y => if inBounds src x y then getPixel src x y else getPixel dst x y)).

(** The PNG data URL of a canvas, identified with the bitmap it encodes. *)
Record DataURL := mkDataURL { decoded : Canvas }.

Definition toDataURL (c : Canvas) : DataURL := mkDataURL c.

(** [ctx.stroke()] of a rectangular path: the pixels a browser paints for a
    stroked rectangle (line joins, anti-aliasing) are left to the rasterizer. *)
Class Rasterizer := {
  strokeRect : forall (x y w h : Z) (strokeStyle : string) (lineWidth : Z),
      Canvas -> Canvas
}.

(** A rasterizer for integer coordinates and square joins: every pixel within
    half the line width of the rectangle's outline takes the stroke colour. *)
Definition colourOf (style : string) : Pixel :=
  if String.eqb style "red" then opaqueRed else mkPixel 0 0 0 255.

Definition onOutline (x y w h half px py : Z) : bool :=
  let x0 := Z.min x (x + w) in
  let x1 := Z.max x (x + w) in
  let y0 := Z.min y (y + h) in
  let y1 := Z.max y (y + h) in
  let outer := (x0 - half <=? px) && (px <? x1 + half)
               && (y0 - half <=? py) && (py <? y1 + half) in
  let inner := (x0 + half <=? px) && (px <? x1 - half)
               && (y0 + half <=? py) && (py <? y1 - half) in
  outer && negb inner.

Definition squareStroke : Rasterizer := {|
  strokeRect x y w h style lineWidth c :=
    mkCanvas (width c) (height c)
      (raster (width c) (height c)
         (fun px py => if onOutline x y w h (lineWidth / 2) px py
                       then colourOf style else getPixel c px py))
|}.

(** ** The PDF library boundary *)

(** A page is the bitmap that [page.render] paints for it on a canvas of the
    viewport's size at scale 1.5. *)
Definition PdfPage := Canvas.

Record PdfDocument := mkPdf { pages : list PdfPage }.

Definition numPages (d : PdfDocument) : Z := Z.of_nat (List.length (pages d)).

(** [pdfDoc.getPage(n)]: pages are numbered from 1; the promise is rejected
    ([None]) for any other number. *)
Definition getPage (d : PdfDocument) (n : Z) : option PdfPage :=
  if (1 <=? n) && (n <=? numPages d) then nth_error (pages d) (Z.to_nat (n - 1))
  else None.

(** The entries of [input.files]: a file is what [getDocument] makes of its
    bytes, [None] when the promise is rejected. *)
Definition File := option PdfDocument.

Record MouseEvent := mkMouse { offsetX : Z; offsetY : Z }.

(** Nodes appended to [document.body]. *)
Inductive Node :=
| CanvasNode (c : Canvas)
| AnchorNode (href : DataURL) (download : string) (innerText : string).

(** ** The component with [currentPage] and [totalPages] *)

Module Current.

Record AppComponent := mkApp {
  pdfCanvas : Canvas;            (* the canvas element of the template *)
  pdfDoc : option PdfDocument;   (* [None] while undefined *)
  currentPage : Z;
  totalPages : Z;
  canvas : Canvas;               (* the offscreen canvas the page is rendered on *)
  cropStartX : Z;
  cropStartY : Z;
  cropWidth : Z;
  cropHeight : Z;
  isSelecting : bool;
  body : list Node;
  console : list string
}.

(** Field initialisers and the constructor. *)
Definition initial : AppComponent :=
  mkApp defaultCanvas None 1 0 defaultCanvas 0 0 0 0 false [] [].

Definition set_pdfCanvas (v : Canvas) (s : AppComponent) : AppComponent :=
  mkApp v (pdfDoc s) (currentPage s) (totalPages s) (canvas s) (cropStartX s)
        (cropStartY s) (cropWidth s) (cropHeight s) (isSelecting s) (body s) (console s).

Definition set_pdfDoc (v : option PdfDocument) (s : AppComponent) : AppComponent :=
  mkApp (pdfCanvas s) v (currentPage s) (totalPages s) (canvas s) (cropStartX s)
        (cropStartY s) (cropWidth s) (cropHeight s) (isSelecting s) (body s) (console s).

Definition set_currentPage (v : Z) (s : AppComponent) : AppComponent :=
  mkApp (pdfCanvas s) (pdfDoc s) v (totalPages s) (canvas s) (cropStartX s)
        (cropStartY s) (cropWidth s) (cropHeight s) (isSelecting s) (body s) (console s).

Definition set_totalPages (v : Z) (s : AppComponent) : AppComponent :=
  mkApp (pdfCanvas s) (pdfDoc s) (currentPage s) v (canvas s) (cropStartX s)
        (cropStartY s) (cropWidth s) (cropHeight s) (isSelecting s) (body s) (console s).

Definition set_canvas (v : Canvas) (s : AppComponent) : AppComponent :=
  mkApp (pdfCanvas s) (pdfDoc s) (currentPage s) (totalPages s) v (cropStartX s)
        (cropStartY s) (cropWidth s) (cropHeight s) (isSelecting s) (body s) (console s).

Definition set_cropStartX (v : Z) (s : AppComponent) : AppComponent :=
  mkApp (pdfCanvas s) (pdfDoc s) (currentPage s) (totalPages s) (canvas s) v
        (cropStartY s) (cropWidth s) (cropHeight s) (isSelecting s) (body s) (console s).

Definition set_cropStartY (v : Z) (s : AppComponent) : AppComponent :=
  mkApp (pdfCanvas s) (pdfDoc s) (currentPage s) (totalPages s) (canvas s) (cropStartX s)
        v (cropWidth s) (cropHeight s) (isSelecting s) (body s) (console s).

Definition set_cropWidth (v : Z) (s : AppComponent) : AppComponent :=
  mkApp (pdfCanvas s) (pdfDoc s) (currentPage s) (totalPages s) (canvas s) (cropStartX s)
        (cropStartY s) v (cropHeight s) (isSelecting s) (body s) (console s).

Definition set_cropHeight (v : Z) (s : AppComponent) : AppComponent :=
  mkApp (pdfCanvas s) (pdfDoc s) (currentPage s) (totalPages s) (canvas s) (cropStartX s)
        (cropStartY s) (cropWidth s) v (isSelecting s) (body s) (console s).

Definition set_isSelecting (v : bool) (s : AppComponent) : AppComponent :=
  mkApp (pdfCanvas s) (pdfDoc s) (currentPage s) (totalPages s) (canvas s) (cropStartX s)
        (cropStartY s) (cropWidth s) (cropHeight s) v (body s) (console s).

Definition set_body (v : list Node) (s : AppComponent) : AppComponent :=
  mkApp (pdfCanvas s) (pdfDoc s) (currentPage s) (totalPages s) (canvas s) (cropStartX s)
        (cropStartY s) (cropWidth s) (cropHeight s) (isSelecting s) v (console s).

Definition set_console (v : list string) (s : AppComponent) : AppComponent :=
  mkApp (pdfCanvas s) (pdfDoc s) (currentPage s) (totalPages s) (canvas s) (cropStartX s)
        (cropStartY s) (cropWidth s) (cropHeight s) (isSelecting s) (body s) v.

(** [displayCanvas]: size the template's canvas like the offscreen one (which
    clears it) and draw the offscreen canvas on it. *)
Definition displayCanvas (s : AppComponent) : AppComponent :=
  let canvasElement := blankCanvas (width (canvas s)) (height (canvas s)) in
  set_pdfCanvas (drawImage (canvas s) canvasElement) s.

(** [renderPage]: the bounds check, then the assignment to [currentPage],
    then the library calls. *)
Definition renderPage (pageNumber : Z) (s : AppComponent) : AppComponent :=
  if (pageNumber <? 1) || (pageNumber >? totalPages s) then s
  else
    let s1 := set_currentPage pageNumber s in
    match pdfDoc s1 with
    | None => s1
    | Some doc =>
        match getPage doc pageNumber with
        | None => s1
        | Some page => displayCanvas (set_canvas page s1)
        end
    end.

(** [loadPdf]: nothing without a first file; otherwise [pdfDoc] and
    [totalPages] are assigned and [renderPage(this.currentPage)] is called. *)
Definition loadPdf (files : list File) (s : AppComponent) : AppComponent :=
  match files with
  | [] => s
  | None :: _ => s
  | Some doc :: _ =>
      let s1 := set_totalPages (numPages doc) (set_pdfDoc (Some doc) s) in
      renderPage (currentPage s1) s1
  end.

Definition goToPreviousPage (s : AppComponent) : AppComponent :=
  if currentPage s >? 1 then renderPage (currentPage s - 1) s else s.

Definition goToNextPage (s : AppComponent) : AppComponent :=
  if currentPage s <? totalPages s then renderPage (currentPage s + 1) s else s.

Definition startCrop (event : MouseEvent) (s : AppComponent) : AppComponent :=
  set_cropHeight 0
    (set_cropWidth 0
       (set_cropStartY (offsetY event)
          (set_cropStartX (offsetX event)
             (set_isSelecting true s)))).

Definition redrawCanvas (s : AppComponent) : AppComponent :=
  set_pdfCanvas (drawImage (canvas s) (clearAll (pdfCanvas s))) s.

Definition drawSelectionArea `{Rasterizer} (s : AppComponent) : AppComponent :=
  set_pdfCanvas
    (strokeRect (cropStartX s) (cropStartY s) (cropWidth s) (cropHeight s) "red" 2
       (pdfCanvas s)) s.

Definition onMouseMove `{Rasterizer} (event : MouseEvent) (s : AppComponent)
  : AppComponent :=
  if isSelecting s then
    let s1 := set_cropWidth (offsetX event - cropStartX s) s in
    let s2 := set_cropHeight (offsetY event - cropStartY s1) s1 in
    drawSelectionArea (redrawCanvas s2)
  else s.

(** [displayCroppedImage]: once the image has loaded, a canvas with the
    image drawn on it and a download link are appended to the body. *)
Definition displayCroppedImage (dataUrl : DataURL) (s : AppComponent) : AppComponent :=
  let img := decoded dataUrl in
  let croppedCanvas := drawImage img (blankCanvas (width img) (height img)) in
  set_body
    (body s ++ [CanvasNode croppedCanvas;
                AnchorNode dataUrl "cropped_image.png" "Download Cropped Image"]) s.

Definition cropImage (s : AppComponent) : AppComponent :=
  let croppedCanvas := blankCanvas (Z.abs (cropWidth s)) (Z.abs (cropHeight s)) in
  if (cropWidth s <=? 0) || (cropHeight s <=? 0) then
    set_console (console s ++ ["Invalid crop area"%string]) s
  else
    match getImageData (pdfCanvas s) (cropStartX s) (cropStartY s)
                       (cropWidth s) (cropHeight s) with
    | None => s
    | Some imageData =>
        displayCroppedImage (toDataURL (putImageData imageData croppedCanvas)) s
    end.

Definition endCrop (s : AppComponent) : AppComponent :=
  if (cropWidth s =? 0) || (cropHeight s =? 0) then set_isSelecting false s
  else cropImage (set_isSelecting false s).

(** The images offered for download: the targets of the appended links. *)
Definition outputImages (s : AppComponent) : list Canvas :=
  flat_map (fun n => match n with
                     | AnchorNode href _ _ => [decoded href]
                     | CanvasNode _ => []
                     end) (body s).

(** The stored crop rectangle. *)
Definition cropRect (s : AppComponent) : Z * Z * Z * Z :=
  (cropStartX s, cropStartY s, cropWidth s, cropHeight s).

(** The handlers of the component, as the user and the file input invoke
    them, and a run of several in sequence. *)
Inductive Event :=
| LoadPdf (files : list File)
| GoToPreviousPage
| GoToNextPage
| StartCrop (event : MouseEvent)
| OnMouseMove (event : MouseEvent)
| EndCrop.

Definition handle `{Rasterizer} (s : AppComponent) (ev : Event) : AppComponent :=
  match ev with
  | LoadPdf files => loadPdf files s
  | GoToPreviousPage => goToPreviousPage s
  | GoToNextPage => goToNextPage s
  | StartCrop e => startCrop e s
  | OnMouseMove e => onMouseMove e s
  | EndCrop => endCrop s
  end.

Definition run `{Rasterizer} (evs : list Event) (s : AppComponent) : AppComponent :=
  fold_left handle evs s.

(** A drag: the mouse goes down at [start] and moves through [moves]. *)
Definition drag `{Rasterizer} (start : MouseEvent) (moves : list MouseEvent)
    (s : AppComponent) : AppComponent :=
  run (StartCrop start :: map OnMouseMove moves) s.

Definition isStartCrop (ev : Event) : bool :=
  match ev with
  | StartCrop _ => true
  | _ => false
  end.

End Current.

(** ** The component of [app.component copy.ts], with [pageNum] *)

Module Copy.

Record AppComponent := mkApp {
  pdfCanvas : Canvas;
  pdfDoc : option PdfDocument;
  pageNum : Z;
  page : option PdfPage;
  canvas : Canvas;
  cropStartX : Z;
  cropStartY : Z;
  cropWidth : Z;
  cropHeight : Z;
  isSelecting : bool;
  body : list Node;
  console : list string
}.

Definition initial : AppComponent :=
  mkApp defaultCanvas None 1 None defaultCanvas 0 0 0 0 false [] [].

Definition set_pdfCanvas (v : Canvas) (s : AppComponent) : AppComponent :=
  mkApp v (pdfDoc s) (pageNum s) (page s) (canvas s) (cropStartX s)
        (cropStartY s) (cropWidth s) (cropHeight s) (isSelecting s) (body s) (console s).

Definition set_pdfDoc (v : option PdfDocument) (s : AppComponent) : AppComponent :=
  mkApp (pdfCanvas s) v (pageNum s) (page s) (canvas s) (cropStartX s)
        (cropStartY s) (cropWidth s) (cropHeight s) (isSelecting s) (body s) (console s).

Definition set_pageNum (v : Z) (s : AppComponent) : AppComponent :=
  mkApp (pdfCanvas s) (pdfDoc s) v (page s) (canvas s) (cropStartX s)
        (cropStartY s) (cropWidth s) (cropHeight s) (isSelecting s) (body s) (console s).

Definition set_page (v : option PdfPage) (s : AppComponent) : AppComponent :=
  mkApp (pdfCanvas s) (pdfDoc s) (pageNum s) v (canvas s) (cropStartX s)
        (cropStartY s) (cropWidth s) (cropHeight s) (isSelecting s) (body s) (console s).

Definition set_canvas (v : Canvas) (s : AppComponent) : AppComponent :=
  mkApp (pdfCanvas s) (pdfDoc s) (pageNum s) (page s) v (cropStartX s)
        (cropStartY s) (cropWidth s) (cropHeight s) (isSelecting s) (body s) (console s).

Definition set_cropStartX (v : Z) (s : AppComponent) : AppComponent :=
  mkApp (pdfCanvas s) (pdfDoc s) (pageNum s) (page s) (canvas s) v
        (cropStartY s) (cropWidth s) (cropHeight s) (isSelecting s) (body s) (console s).

Definition set_cropStartY (v : Z) (s : AppComponent) : AppComponent :=
  mkApp (pdfCanvas s) (pdfDoc s) (pageNum s) (page s) (canvas s) (cropStartX s)
        v (cropWidth s) (cropHeight s) (isSelecting s) (body s) (console s).

Definition set_cropWidth (v : Z) (s : AppComponent) : AppComponent :=
  mkApp (pdfCanvas s) (pdfDoc s) (pageNum s) (page s) (canvas s) (cropStartX s)
        (cropStartY s) v (cropHeight s) (isSelecting s) (body s) (console s).

Definition set_cropHeight (v : Z) (s : AppComponent) : AppComponent :=
  mkApp (pdfCanvas s) (pdfDoc s) (pageNum s) (page s) (canvas s) (cropStartX s)
        (cropStartY s) (cropWidth s) v (isSelecting s) (body s) (console s).

Definition set_isSelecting (v : bool) (s : AppComponent) : AppComponent :=
  mkApp (pdfCanvas s) (pdfDoc s) (pageNum s) (page s) (canvas s) (cropStartX s)
        (cropStartY s) (cropWidth s) (cropHeight s) v (body s) (console s).

Definition set_body (v : list Node) (s : AppComponent) : AppComponent :=
  mkApp (pdfCanvas s) (pdfDoc s) (pageNum s) (page s) (canvas s) (cropStartX s)
        (cropStartY s) (cropWidth s) (cropHeight s) (isSelecting s) v (console s).

Definition set_console (v : list string) (s : AppComponent) : AppComponent :=
  mkApp (pdfCanvas s) (pdfDoc s) (pageNum s) (page s) (canvas s) (cropStartX s)
        (cropStartY s) (cropWidth s) (cropHeight s) (isSelecting s) (body s) v.

Definition displayCanvas (s : AppComponent) : AppComponent :=
  let canvasElement := blankCanvas (width (canvas s)) (height (canvas s)) in
  set_pdfCanvas (drawImage (canvas s) canvasElement) s.

(** [renderPage] has no bounds check here: [this.pdfDoc.getPage] throws
    while [pdfDoc] is undefined and rejects a page number out of range, both
    before [this.page] is assigned. *)
Definition renderPage (pageNumber : Z) (s : AppComponent) : AppComponent :=
  match pdfDoc s with
  | None => s
  | Some doc =>
      match getPage doc pageNumber with
      | None => s
      | Some pg => displayCanvas (set_canvas pg (set_page (Some pg) s))
      end
  end.

Definition loadPdf (files : list File) (s : AppComponent) : AppComponent :=
  match files with
  | [] => s
  | None :: _ => s
  | Some doc :: _ =>
      let s1 := set_pdfDoc (Some doc) s in
      renderPage (pageNum s1) s1
  end.

Definition goToPreviousPage (s : AppComponent) : AppComponent :=
  if pageNum s <=? 1 then s
  else
    let s1 := set_pageNum (pageNum s - 1) s in
    renderPage (pageNum s1) s1.

(** [this.pdfDoc.numPages] throws while [pdfDoc] is undefined. *)
Definition goToNextPage (s : AppComponent) : AppComponent :=
  match pdfDoc s with
  | None => s
  | Some doc =>
      if pageNum s >=? numPages doc then s
      else
        let s1 := set_pageNum (pageNum s + 1) s in
        renderPage (pageNum s1) s1
  end.

Definition startCrop (event : MouseEvent) (s : AppComponent) : AppComponent :=
  set_cropHeight 0
    (set_cropWidth 0
       (set_cropStartY (offsetY event)
          (set_cropStartX (offsetX event)
             (set_isSelecting true s)))).

Definition redrawCanvas (s : AppComponent) : AppComponent :=
  set_pdfCanvas (drawImage (canvas s) (clearAll (pdfCanvas s))) s.

Definition drawSelectionArea `{Rasterizer} (s : AppComponent) : AppComponent :=
  set_pdfCanvas
    (strokeRect (cropStartX s) (cropStartY s) (cropWidth s) (cropHeight s) "red" 2
       (pdfCanvas s)) s.

Definition onMouseMove `{Rasterizer} (event : MouseEvent) (s : AppComponent)
  : AppComponent :=
  if isSelecting s then
    let s1 := set_cropWidth (offsetX event - cropStartX s) s in
    let s2 := set_cropHeight (offsetY event - cropStartY s1) s1 in
    drawSelectionArea (redrawCanvas s2)
  else s.

Definition displayCroppedImage (dataUrl : DataURL) (s : AppComponent) : AppComponent :=
  let img := decoded dataUrl in
  let croppedCanvas := drawImage img (blankCanvas (width img) (height img)) in
  set_body
    (body s ++ [CanvasNode croppedCanvas;
                AnchorNode dataUrl "cropped_image.png" "Download Cropped Image"]) s.

Definition cropImage (s : AppComponent) : AppComponent :=
  let croppedCanvas := blankCanvas (Z.abs (cropWidth s)) (Z.abs (cropHeight s)) in
  if (cropWidth s <=? 0) || (cropHeight s <=? 0) then
    set_console (console s ++ ["Invalid crop area"%string]) s
  else
    match getImageData (pdfCanvas s) (cropStartX s) (cropStartY s)
                       (cropWidth s) (cropHeight s) with
    | None => s
    | Some imageData =>
        displayCroppedImage (toDataURL (putImageData imageData croppedCanvas)) s
    end.

Definition endCrop (s : AppComponent) : AppComponent :=
  if (cropWidth s =? 0) || (cropHeight s =? 0) then set_isSelecting false s
  else cropImage (set_isSelecting false s).

Definition outputImages (s : AppComponent) : list Canvas :=
  flat_map (fun n => match n with
                     | AnchorNode href _ _ => [decoded href]
                     | CanvasNode _ => []
                     end) (body s).

Definition cropRect (s : AppComponent) : Z * Z * Z * Z :=
  (cropStartX s, cropStartY s, cropWidth s, cropHeight s).

Inductive Event :=
| LoadPdf (files : list File)
| GoToPreviousPage
| GoToNextPage
| StartCrop (event : MouseEvent)
| OnMouseMove (event : MouseEvent)
| EndCrop.

Definition handle `{Rasterizer} (s : AppComponent) (ev : Event) : AppComponent :=
  match ev with
  | LoadPdf files => loadPdf files s
  | GoToPreviousPage => goToPreviousPage s
  | GoToNextPage => goToNextPage s
  | StartCrop e => startCrop e s
  | OnMouseMove e => onMouseMove e s
  | EndCrop => endCrop s
  end.

Definition run `{Rasterizer} (evs : list Event) (s : AppComponent) : AppComponent :=
  fold_left handle evs s.

(** A drag: the mouse goes down at [start] and moves through [moves]. *)
Definition drag `{Rasterizer} (start : MouseEvent) (moves : list MouseEvent)
    (s : AppComponent) : AppComponent :=
  run (StartCrop start :: map OnMouseMove moves) s.

Definition isStartCrop (ev : Event) : bool :=
  match ev with
  | StartCrop _ => true
  | _ => false
  end.

End Copy.

(** ** Sample data *)

(** A page of [w] by [h] pixels of one colour. *)
Definition solidPage (w h : Z) (p : Pixel) : PdfPage := mkCanvas w h (raster w h (fun _ _ => p)).

(** A page with a different colour at every pixel. *)
Definition gradientPage (w h : Z) : PdfPage :=
  mkCanvas w h (raster w h (fun x y => mkPixel x y (x + y) 255)).

Definition onePageDoc : PdfDocument := mkPdf [gradientPage 8 6].

Definition threePageDoc : PdfDocument :=
  mkPdf [gradientPage 8 6; solidPage 8 6 opaqueWhite; solidPage 8 6 opaqueRed].

(** Both components after the one-page document has been loaded. *)
Definition loadedCurrent : Current.AppComponent :=
  Current.loadPdf [Some onePageDoc] Current.initial.

Definition loadedCopy : Copy.AppComponent :=
  Copy.loadPdf [Some onePageDoc] Copy.initial.

(** A drag up and to the left, from (5,4) to (2,1), on the loaded page. *)
Definition upLeftDrag : list Current.Event :=
  [Current.StartCrop (mkMouse 5 4); Current.OnMouseMove (mkMouse 2 1); Current.EndCrop].

(** Mouse down at (5,4) and nothing else. *)
Definition pressedCurrent : Current.AppComponent :=
  Current.startCrop (mkMouse 5 4) loadedCurrent.

Definition pressedCopy : Copy.AppComponent :=
  Copy.startCrop (mkMouse 5 4) loadedCopy.

(** The three-page document, one page forward, then the one-page document. *)
Definition reloadedCurrent : Current.AppComponent :=
  Current.loadPdf [Some onePageDoc]
    (Current.goToNextPage (Current.loadPdf [Some threePageDoc] Current.initial)).

Definition reloadedCopy : Copy.AppComponent :=
  Copy.loadPdf [Some onePageDoc]
    (Copy.goToNextPage (Copy.loadPdf [Some threePageDoc] Copy.initial)).

(** The three-page document, forward to its last page, then the one-page
    document. *)
Definition lastPageThenReloadCurrent : Current.AppComponent :=
  Current.loadPdf [Some onePageDoc]
    (Current.goToNextPage (Current.goToNextPage
      (Current.loadPdf [Some threePageDoc] Current.initial))).

Definition lastPageThenReloadCopy : Copy.AppComponent :=
  Copy.loadPdf [Some onePageDoc]
    (Copy.goToNextPage (Copy.goToNextPage
      (Copy.loadPdf [Some threePageDoc] Copy.initial))).

(** The three-page document on its second page. *)
Definition middleCurrent : Current.AppComponent :=
  Current.goToNextPage (Current.loadPdf [Some threePageDoc] Current.initial).

Definition middleCopy : Copy.AppComponent :=
  Copy.goToNextPage (Copy.loadPdf [Some threePageDoc] Copy.initial).

(** ** Vocabulary of the statements *)

(** The rectangle of [src] that starts at column [x], row [y] and is [w]
    wide and [h] high, as a bitmap of its own. *)
Definition region (src : Canvas) (x y w h : Z) : Canvas :=
  mkCanvas w h (raster w h (fun i j => getPixel src (x + i) (y + j))).

(** What [displayCroppedImage] appends for an exported bitmap. *)
Definition exported (img : Canvas) : list Node :=
  [CanvasNode img;
   AnchorNode (toDataURL img) "cropped_image.png" "Download Cropped Image"].

(** The page index lies within 1 and the page count of the loaded document. *)
Definition pageIndexInBounds (s : Current.AppComponent) : Prop :=
  forall doc, Current.pdfDoc s = Some doc ->
    1 <= Current.currentPage s <= Current.totalPages s
    /\ Current.totalPages s = numPages doc.

(** The two components hold the same page index and the same page count. *)
Definition sameStart (a : Current.AppComponent) (b : Copy.AppComponent) : Prop :=
  Current.currentPage a = Copy.pageNum b
  /\ option_map numPages (Copy.pdfDoc b) = Some (Current.totalPages a).

(** Page-forward and page-back leave both components on the same index. *)
Definition sameNavigation (a : Current.AppComponent) (b : Copy.AppComponent) : Prop :=
  Current.currentPage (Current.goToNextPage a) = Copy.pageNum (Copy.goToNextPage b)
  /\ Current.currentPage (Current.goToPreviousPage a)
     = Copy.pageNum (Copy.goToPreviousPage b).

(** An abort that logs: no node appended, one more message on the console,
    the crop rectangle as before. *)
Definition abortsWithLog (s s' : Current.AppComponent) : Prop :=
  Current.body s' = Current.body s
  /\ (exists msg, Current.console s' = Current.console s ++ [msg])
  /\ Current.cropRect s' = Current.cropRect s.

(** ** Vocabulary of the further properties *)

(** Two canvases of one size with the same pixel everywhere. *)
Definition samePixels (c d : Canvas) : Prop :=
  width c = width d /\ height c = height d
  /\ forall x y, getPixel c x y = getPixel d x y.

(** The page state is in order: without a document the count is 0 and the
    index 1; with one, the count is the document's, the index lies within it
    and the offscreen canvas holds the page of that index. *)
Definition pageShown (s : Current.AppComponent) : Prop :=
  match Current.pdfDoc s with
  | None => Current.totalPages s = 0 /\ Current.currentPage s = 1
  | Some doc =>
      Current.totalPages s = numPages doc
      /\ 1 <= Current.currentPage s <= numPages doc
      /\ getPage doc (Current.currentPage s) = Some (Current.canvas s)
  end.

(** The part of it that every run keeps: the index is at least 1 and the
    count is that of the document held. *)
Definition pageCounted (s : Current.AppComponent) : Prop :=
  1 <= Current.currentPage s
  /\ match Current.pdfDoc s with
     | None => Current.totalPages s = 0 /\ Current.currentPage s = 1
     | Some doc => Current.totalPages s = numPages doc
     end.

Definition pageCountedCopy (s : Copy.AppComponent) : Prop :=
  1 <= Copy.pageNum s /\ (Copy.pdfDoc s = None -> Copy.pageNum s = 1).

(** The fields the page handlers work on, and those the crop handlers work
    on besides the displayed canvas. *)
Definition pageState (s : Current.AppComponent)
  : option PdfDocument * Z * Z * Canvas :=
  (Current.pdfDoc s, Current.currentPage s, Current.totalPages s, Current.canvas s).

Definition pageStateCopy (s : Copy.AppComponent)
  : option PdfDocument * Z * option PdfPage * Canvas :=
  (Copy.pdfDoc s, Copy.pageNum s, Copy.page s, Copy.canvas s).

Definition cropState (s : Current.AppComponent)
  : Z * Z * Z * Z * bool * list Node * list string :=
  (Current.cropRect s, Current.isSelecting s, Current.body s, Current.console s).

Definition cropStateCopy (s : Copy.AppComponent)
  : Z * Z * Z * Z * bool * list Node * list string :=
  (Copy.cropRect s, Copy.isSelecting s, Copy.body s, Copy.console s).

(** The same event for the copy. *)
Definition toCopy (ev : Current.Event) : Copy.Event :=
  match ev with
  | Current.LoadPdf files => Copy.LoadPdf files
  | Current.GoToPreviousPage => Copy.GoToPreviousPage
  | Current.GoToNextPage => Copy.GoToNextPage
  | Current.StartCrop e => Copy.StartCrop e
  | Current.OnMouseMove e => Copy.OnMouseMove e
  | Current.EndCrop => Copy.EndCrop
  end.

Definition isCropEvent (ev : Current.Event) : bool :=
  match ev with
  | Current.StartCrop _ | Current.OnMouseMove _ | Current.EndCrop => true
  | _ => false
  end.

(** A load whose first file is a readable document. *)
Definition loadsDocument (ev : Current.Event) : bool :=
  match ev with
  | Current.LoadPdf (Some _ :: _) => true
  | _ => false
  end.

(** The event is no load of a document with fewer pages than the index. *)
Definition loadFits (s : Current.AppComponent) (ev : Current.Event) : bool :=
  match ev with
  | Current.LoadPdf (Some doc :: _) => Current.currentPage s <=? numPages doc
  | _ => true
  end.

Fixpoint reloadsFit `{Rasterizer} (evs : list Current.Event)
    (s : Current.AppComponent) : bool :=
  match evs with
  | [] => true
  | ev :: rest => loadFits s ev && reloadsFit rest (Current.handle s ev)
  end.

(** What the two versions have in common: everything but [totalPages] on
    one side and [page] on the other. *)
Definition sameView (a : Current.AppComponent) (b : Copy.AppComponent) : Prop :=
  Current.pdfCanvas a = Copy.pdfCanvas b
  /\ Current.canvas a = Copy.canvas b
  /\ Current.pdfDoc a = Copy.pdfDoc b
  /\ Current.currentPage a = Copy.pageNum b
  /\ Current.cropRect a = Copy.cropRect b
  /\ Current.isSelecting a = Copy.isSelecting b
  /\ Current.body a = Copy.body b
  /\ Current.console a = Copy.console b.

(** A session on the three-page document: forward, a drag, back. *)
Definition sampleSession : list Current.Event :=
  [Current.LoadPdf [Some threePageDoc]; Current.GoToNextPage;
   Current.StartCrop (mkMouse 1 1); Current.OnMouseMove (mkMouse 4 3);
   Current.EndCrop; Current.GoToPreviousPage; Current.LoadPdf []].

(** Crop events and failed loads only. *)
Definition sampleIdleSession : list Current.Event :=
  [Current.GoToNextPage; Current.LoadPdf [None]; Current.StartCrop (mkMouse 1 1);
   Current.OnMouseMove (mkMouse 4 3); Current.EndCrop; Current.GoToPreviousPage].

Definition sampleGesture : list Current.Event :=
  [Current.StartCrop (mkMouse 1 1); Current.OnMouseMove (mkMouse 4 3);
   Current.EndCrop; Current.OnMouseMove (mkMouse 0 0)].

Definition samplePaging : list Current.Event :=
  [Current.GoToNextPage; Current.LoadPdf [Some onePageDoc];
   Current.GoToPreviousPage; Current.GoToNextPage].

(** * Properties *)

(** ** Bitmaps *)

Lemma nth_map_seq {A} (g : nat -> A) (n k : nat) (d : A) :
  (k < n)%nat -> nth k (map g (seq 0 n)) d = g k.
Proof.
  intros Hk.
  rewrite (nth_indep _ d (g 0%nat)) by (rewrite length_map, length_seq; exact Hk).
  rewrite map_nth, seq_nth by exact Hk.
  reflexivity.
Qed.

Lemma inBounds_true c x y :
  0 <= x < width c -> 0 <= y < height c -> inBounds c x y = true.
Proof.
  intros Hx Hy. unfold inBounds.
  rewrite !andb_true_iff, !Z.leb_le, !Z.ltb_lt. lia.
Qed.

Lemma getPixel_raster w h f x y :
  0 <= x < w -> 0 <= y < h -> getPixel (mkCanvas w h (raster w h f)) x y = f x y.
Proof.
  intros Hx Hy. unfold getPixel.
  rewrite inBounds_true by assumption.
  cbn [rows]. unfold raster.
  rewrite (nth_map_seq _ (Z.to_nat h) (Z.to_nat y) []) by lia.
  rewrite nth_map_seq by lia.
  rewrite !Z2Nat.id by lia.
  reflexivity.
Qed.

Lemma raster_ext w h f g :
  (forall x y, 0 <= x < w -> 0 <= y < h -> f x y = g x y) ->
  raster w h f = raster w h g.
Proof.
  intros Hfg. unfold raster.
  apply map_ext_in. intros j Hj. apply in_seq in Hj.
  apply map_ext_in. intros i Hi. apply in_seq in Hi.
  apply Hfg; lia.
Qed.

Lemma region_spec src x y w h :
  width (region src x y w h) = w /\
  height (region src x y w h) = h /\
  forall i j, 0 <= i < w -> 0 <= j < h ->
    getPixel (region src x y w h) i j = getPixel src (x + i) (y + j).
Proof.
  repeat split. intros i j Hi Hj. unfold region.
  now rewrite getPixel_raster.
Qed.

(** Drawing a bitmap on a cleared canvas of its own size copies it. *)
Lemma drawImage_blank w h f :
  drawImage (mkCanvas w h (raster w h f)) (blankCanvas w h)
  = mkCanvas w h (raster w h f).
Proof.
  unfold drawImage, blankCanvas. cbn [width height]. f_equal.
  apply raster_ext. intros x y Hx Hy.
  rewrite inBounds_true by assumption.
  now apply getPixel_raster.
Qed.

(** Reading a rectangle of positive size and writing it to a blank canvas
    of that size yields the rectangle. *)
Lemma get_then_put_region c x y w h :
  0 < w -> 0 < h ->
  exists img, getImageData c x y w h = Some img /\
    putImageData img (blankCanvas (Z.abs w) (Z.abs h)) = region c x y w h.
Proof.
  intros Hw Hh. unfold getImageData.
  replace ((w =? 0) || (h =? 0)) with false
    by (symmetry; apply orb_false_iff; split; apply Z.eqb_neq; lia).
  rewrite !Z.abs_eq by lia.
  rewrite !Z.min_l by lia.
  eexists. split; [reflexivity|].
  unfold putImageData, region, blankCanvas. cbn [width height iwidth iheight idata].
  f_equal. apply raster_ext. intros i j Hi Hj.
  rewrite inBounds_true by assumption.
  rewrite getPixel_raster by assumption.
  reflexivity.
Qed.

(** ** Crop gestures *)

Ltac crop_unfold :=
  cbv beta iota zeta delta
    [Current.endCrop Current.onMouseMove Current.startCrop
     Current.drawSelectionArea Current.redrawCanvas Current.cropRect
     Current.set_cropHeight Current.set_cropWidth Current.set_cropStartY
     Current.set_cropStartX Current.set_isSelecting Current.set_pdfCanvas
     Current.set_body Current.set_console
     Current.pdfCanvas Current.pdfDoc Current.currentPage Current.totalPages
     Current.canvas Current.cropStartX Current.cropStartY Current.cropWidth
     Current.cropHeight Current.isSelecting Current.body Current.console
     Copy.endCrop Copy.onMouseMove Copy.startCrop
     Copy.drawSelectionArea Copy.redrawCanvas Copy.cropRect
     Copy.set_cropHeight Copy.set_cropWidth Copy.set_cropStartY
     Copy.set_cropStartX Copy.set_isSelecting Copy.set_pdfCanvas
     Copy.set_body Copy.set_console
     Copy.pdfCanvas Copy.pdfDoc Copy.pageNum Copy.page
     Copy.canvas Copy.cropStartX Copy.cropStartY Copy.cropWidth
     Copy.cropHeight Copy.isSelecting Copy.body Copy.console
     offsetX offsetY] in *.

(** [cropImage] on a rectangle of positive size appends the selected region. *)
Lemma Current_cropImage_valid (s : Current.AppComponent) :
  0 < Current.cropWidth s -> 0 < Current.cropHeight s ->
  let img := region (Current.pdfCanvas s) (Current.cropStartX s) (Current.cropStartY s)
                    (Current.cropWidth s) (Current.cropHeight s) in
  Current.cropImage s
  = Current.set_body
      (Current.body s ++
         [CanvasNode img;
          AnchorNode (toDataURL img) "cropped_image.png" "Download Cropped Image"]) s.
Proof.
  intros Hw Hh img. unfold Current.cropImage.
  replace ((Current.cropWidth s <=? 0) || (Current.cropHeight s <=? 0)) with false
    by (symmetry; apply orb_false_iff; split; apply Z.leb_gt; lia).
  destruct (get_then_put_region (Current.pdfCanvas s) (Current.cropStartX s)
              (Current.cropStartY s) _ _ Hw Hh) as [data [Hget Hput]].
  rewrite Hget, Hput. unfold Current.displayCroppedImage, toDataURL.
  cbn [decoded]. fold img. unfold img at 1 2 3, region. cbn [width height].
  rewrite drawImage_blank. reflexivity.
Qed.

Lemma Copy_cropImage_valid (s : Copy.AppComponent) :
  0 < Copy.cropWidth s -> 0 < Copy.cropHeight s ->
  let img := region (Copy.pdfCanvas s) (Copy.cropStartX s) (Copy.cropStartY s)
                    (Copy.cropWidth s) (Copy.cropHeight s) in
  Copy.cropImage s
  = Copy.set_body
      (Copy.body s ++
         [CanvasNode img;
          AnchorNode (toDataURL img) "cropped_image.png" "Download Cropped Image"]) s.
Proof.
  intros Hw Hh img. unfold Copy.cropImage.
  replace ((Copy.cropWidth s <=? 0) || (Copy.cropHeight s <=? 0)) with false
    by (symmetry; apply orb_false_iff; split; apply Z.leb_gt; lia).
  destruct (get_then_put_region (Copy.pdfCanvas s) (Copy.cropStartX s)
              (Copy.cropStartY s) _ _ Hw Hh) as [data [Hget Hput]].
  rewrite Hget, Hput. unfold Copy.displayCroppedImage, toDataURL.
  cbn [decoded]. fold img. unfold img at 1 2 3, region. cbn [width height].
  rewrite drawImage_blank. reflexivity.
Qed.

(** One mouse-move while the mouse is down: width and height follow the
    pointer, the displayed canvas is cleared, redrawn from the offscreen
    canvas and stroked with the selection outline; the rest stays. *)
Lemma Current_move_while_selecting {R : Rasterizer} (e : MouseEvent)
    (s : Current.AppComponent) :
  Current.isSelecting s = true ->
  Current.isSelecting (Current.onMouseMove e s) = true
  /\ Current.cropStartX (Current.onMouseMove e s) = Current.cropStartX s
  /\ Current.cropStartY (Current.onMouseMove e s) = Current.cropStartY s
  /\ Current.cropWidth (Current.onMouseMove e s) = offsetX e - Current.cropStartX s
  /\ Current.cropHeight (Current.onMouseMove e s) = offsetY e - Current.cropStartY s
  /\ Current.body (Current.onMouseMove e s) = Current.body s
  /\ Current.console (Current.onMouseMove e s) = Current.console s
  /\ Current.canvas (Current.onMouseMove e s) = Current.canvas s
  /\ Current.pdfCanvas (Current.onMouseMove e s)
     = strokeRect (Current.cropStartX s) (Current.cropStartY s)
         (offsetX e - Current.cropStartX s) (offsetY e - Current.cropStartY s) "red" 2
         (drawImage (Current.canvas s) (clearAll (Current.pdfCanvas s))).
Proof.
  destruct s, e. crop_unfold. intros ->. repeat split; reflexivity.
Qed.

Lemma Copy_move_while_selecting {R : Rasterizer} (e : MouseEvent)
    (s : Copy.AppComponent) :
  Copy.isSelecting s = true ->
  Copy.isSelecting (Copy.onMouseMove e s) = true
  /\ Copy.cropStartX (Copy.onMouseMove e s) = Copy.cropStartX s
  /\ Copy.cropStartY (Copy.onMouseMove e s) = Copy.cropStartY s
  /\ Copy.cropWidth (Copy.onMouseMove e s) = offsetX e - Copy.cropStartX s
  /\ Copy.cropHeight (Copy.onMouseMove e s) = offsetY e - Copy.cropStartY s
  /\ Copy.body (Copy.onMouseMove e s) = Copy.body s
  /\ Copy.console (Copy.onMouseMove e s) = Copy.console s
  /\ Copy.canvas (Copy.onMouseMove e s) = Copy.canvas s
  /\ Copy.pdfCanvas (Copy.onMouseMove e s)
     = strokeRect (Copy.cropStartX s) (Copy.cropStartY s)
         (offsetX e - Copy.cropStartX s) (offsetY e - Copy.cropStartY s) "red" 2
         (drawImage (Copy.canvas s) (clearAll (Copy.pdfCanvas s))).
Proof.
  destruct s, e. crop_unfold. intros ->. repeat split; reflexivity.
Qed.

(** Any number of mouse-moves while the mouse is down keep the flag, the
    start point, the body, the console and the offscreen canvas. *)
Lemma Current_moves_while_selecting {R : Rasterizer} (moves : list MouseEvent) :
  forall s : Current.AppComponent,
  Current.isSelecting s = true ->
  Current.isSelecting (Current.run (map Current.OnMouseMove moves) s) = true
  /\ Current.cropStartX (Current.run (map Current.OnMouseMove moves) s)
     = Current.cropStartX s
  /\ Current.cropStartY (Current.run (map Current.OnMouseMove moves) s)
     = Current.cropStartY s
  /\ Current.body (Current.run (map Current.OnMouseMove moves) s) = Current.body s
  /\ Current.console (Current.run (map Current.OnMouseMove moves) s)
     = Current.console s
  /\ Current.canvas (Current.run (map Current.OnMouseMove moves) s)
     = Current.canvas s.
Proof.
  induction moves as [|e moves IH]; intros s Hon.
  - repeat split; assumption.
  - destruct (Current_move_while_selecting e s Hon)
      as (Hsel & Hx & Hy & _ & _ & Hbody & Hlog & Hcv & _).
    destruct (IH _ Hsel) as (Hsel' & Hx' & Hy' & Hbody' & Hlog' & Hcv').
    unfold Current.run in *. cbn [map fold_left Current.handle].
    repeat split; congruence.
Qed.

Lemma Copy_moves_while_selecting {R : Rasterizer} (moves : list MouseEvent) :
  forall s : Copy.AppComponent,
  Copy.isSelecting s = true ->
  Copy.isSelecting (Copy.run (map Copy.OnMouseMove moves) s) = true
  /\ Copy.cropStartX (Copy.run (map Copy.OnMouseMove moves) s) = Copy.cropStartX s
  /\ Copy.cropStartY (Copy.run (map Copy.OnMouseMove moves) s) = Copy.cropStartY s
  /\ Copy.body (Copy.run (map Copy.OnMouseMove moves) s) = Copy.body s
  /\ Copy.console (Copy.run (map Copy.OnMouseMove moves) s) = Copy.console s
  /\ Copy.canvas (Copy.run (map Copy.OnMouseMove moves) s) = Copy.canvas s.
Proof.
  induction moves as [|e moves IH]; intros s Hon.
  - repeat split; assumption.
  - destruct (Copy_move_while_selecting e s Hon)
      as (Hsel & Hx & Hy & _ & _ & Hbody & Hlog & Hcv & _).
    destruct (IH _ Hsel) as (Hsel' & Hx' & Hy' & Hbody' & Hlog' & Hcv').
    unfold Copy.run in *. cbn [map fold_left Copy.handle].
    repeat split; congruence.
Qed.

(** The state at the end of a drag from (x,y) whose last mouse-move is at
    (x+w, y+h). *)
Lemma Current_drag_state {R : Rasterizer} (a : Current.AppComponent)
    (x y w h : Z) (moves : list MouseEvent) :
  let pre := Current.drag (mkMouse x y) moves a in
  let da := Current.drag (mkMouse x y) (moves ++ [mkMouse (x + w) (y + h)]) a in
  da = Current.onMouseMove (mkMouse (x + w) (y + h)) pre
  /\ Current.cropRect da = (x, y, w, h)
  /\ Current.isSelecting da = true
  /\ Current.body da = Current.body a
  /\ Current.console da = Current.console a
  /\ Current.pdfCanvas da
     = strokeRect x y w h "red" 2
         (drawImage (Current.canvas a) (clearAll (Current.pdfCanvas pre))).
Proof.
  intros pre da.
  assert (Hda : da = Current.onMouseMove (mkMouse (x + w) (y + h)) pre).
  { subst da pre. unfold Current.drag, Current.run.
    rewrite map_app. cbn [fold_left]. rewrite fold_left_app. reflexivity. }
  assert (Hstart : Current.isSelecting (Current.startCrop (mkMouse x y) a) = true
                   /\ Current.cropStartX (Current.startCrop (mkMouse x y) a) = x
                   /\ Current.cropStartY (Current.startCrop (mkMouse x y) a) = y
                   /\ Current.body (Current.startCrop (mkMouse x y) a) = Current.body a
                   /\ Current.console (Current.startCrop (mkMouse x y) a)
                      = Current.console a
                   /\ Current.canvas (Current.startCrop (mkMouse x y) a)
                      = Current.canvas a).
  { destruct a. repeat split; reflexivity. }
  destruct Hstart as (Hs & Hsx & Hsy & Hsb & Hsl & Hsc).
  destruct (Current_moves_while_selecting moves _ Hs)
    as (Hsel & Hx & Hy & Hbody & Hlog & Hcv).
  change (Current.run (map Current.OnMouseMove moves) (Current.startCrop (mkMouse x y) a))
    with pre in Hsel, Hx, Hy, Hbody, Hlog, Hcv.
  destruct (Current_move_while_selecting (mkMouse (x + w) (y + h)) pre Hsel)
    as (Hsel' & Hx' & Hy' & Hw' & Hh' & Hbody' & Hlog' & _ & Hpc).
  rewrite <- Hda in Hsel', Hx', Hy', Hw', Hh', Hbody', Hlog', Hpc.
  cbn [offsetX offsetY] in *.
  split; [exact Hda|].
  split; [unfold Current.cropRect; repeat f_equal; lia|].
  split; [exact Hsel'|].
  split; [congruence|]. split; [congruence|].
  rewrite Hpc. f_equal; try lia. congruence.
Qed.

Lemma Copy_drag_state {R : Rasterizer} (b : Copy.AppComponent)
    (x y w h : Z) (moves : list MouseEvent) :
  let pre := Copy.drag (mkMouse x y) moves b in
  let db := Copy.drag (mkMouse x y) (moves ++ [mkMouse (x + w) (y + h)]) b in
  db = Copy.onMouseMove (mkMouse (x + w) (y + h)) pre
  /\ Copy.cropRect db = (x, y, w, h)
  /\ Copy.isSelecting db = true
  /\ Copy.body db = Copy.body b
  /\ Copy.console db = Copy.console b
  /\ Copy.pdfCanvas db
     = strokeRect x y w h "red" 2
         (drawImage (Copy.canvas b) (clearAll (Copy.pdfCanvas pre))).
Proof.
  intros pre db.
  assert (Hdb : db = Copy.onMouseMove (mkMouse (x + w) (y + h)) pre).
  { subst db pre. unfold Copy.drag, Copy.run.
    rewrite map_app. cbn [fold_left]. rewrite fold_left_app. reflexivity. }
  assert (Hstart : Copy.isSelecting (Copy.startCrop (mkMouse x y) b) = true
                   /\ Copy.cropStartX (Copy.startCrop (mkMouse x y) b) = x
                   /\ Copy.cropStartY (Copy.startCrop (mkMouse x y) b) = y
                   /\ Copy.body (Copy.startCrop (mkMouse x y) b) = Copy.body b
                   /\ Copy.console (Copy.startCrop (mkMouse x y) b) = Copy.console b
                   /\ Copy.canvas (Copy.startCrop (mkMouse x y) b) = Copy.canvas b).
  { destruct b. repeat split; reflexivity. }
  destruct Hstart as (Hs & Hsx & Hsy & Hsb & Hsl & Hsc).
  destruct (Copy_moves_while_selecting moves _ Hs)
    as (Hsel & Hx & Hy & Hbody & Hlog & Hcv).
  change (Copy.run (map Copy.OnMouseMove moves) (Copy.startCrop (mkMouse x y) b))
    with pre in Hsel, Hx, Hy, Hbody, Hlog, Hcv.
  destruct (Copy_move_while_selecting (mkMouse (x + w) (y + h)) pre Hsel)
    as (Hsel' & Hx' & Hy' & Hw' & Hh' & Hbody' & Hlog' & _ & Hpc).
  rewrite <- Hdb in Hsel', Hx', Hy', Hw', Hh', Hbody', Hlog', Hpc.
  cbn [offsetX offsetY] in *.
  split; [exact Hdb|].
  split; [unfold Copy.cropRect; repeat f_equal; lia|].
  split; [exact Hsel'|].
  split; [congruence|]. split; [congruence|].
  rewrite Hpc. f_equal; try lia. congruence.
Qed.

(** [endCrop] on a rectangle of positive size appends the selected region
    of the displayed canvas. *)
Lemma Current_endCrop_valid (s : Current.AppComponent) :
  0 < Current.cropWidth s -> 0 < Current.cropHeight s ->
  Current.body (Current.endCrop s)
  = Current.body s ++
      exported (region (Current.pdfCanvas s) (Current.cropStartX s)
                  (Current.cropStartY s) (Current.cropWidth s) (Current.cropHeight s)).
Proof.
  intros Hw Hh. unfold Current.endCrop.
  replace ((Current.cropWidth s =? 0) || (Current.cropHeight s =? 0)) with false
    by (symmetry; apply orb_false_iff; split; apply Z.eqb_neq; lia).
  rewrite Current_cropImage_valid by (destruct s; assumption).
  destruct s. reflexivity.
Qed.

Lemma Copy_endCrop_valid (s : Copy.AppComponent) :
  0 < Copy.cropWidth s -> 0 < Copy.cropHeight s ->
  Copy.body (Copy.endCrop s)
  = Copy.body s ++
      exported (region (Copy.pdfCanvas s) (Copy.cropStartX s)
                  (Copy.cropStartY s) (Copy.cropWidth s) (Copy.cropHeight s)).
Proof.
  intros Hw Hh. unfold Copy.endCrop.
  replace ((Copy.cropWidth s =? 0) || (Copy.cropHeight s =? 0)) with false
    by (symmetry; apply orb_false_iff; split; apply Z.eqb_neq; lia).
  rewrite Copy_cropImage_valid by (destruct s; assumption).
  destruct s. reflexivity.
Qed.

Lemma outputs_of_exported (nodes : list Node) (img : Canvas) :
  flat_map (fun n => match n with
                     | AnchorNode href _ _ => [decoded href]
                     | CanvasNode _ => []
                     end) (nodes ++ exported img)
  = flat_map (fun n => match n with
                       | AnchorNode href _ _ => [decoded href]
                       | CanvasNode _ => []
                       end) nodes ++ [img].
Proof.
  rewrite flat_map_app. reflexivity.
Qed.

(** C1.  A drag that starts at (x,y) and whose last mouse-move is at
    (x+w, y+h), with w and h positive and any mouse-moves in between, ended
    by crop-end, appends to the page one canvas and one download link that
    hold an image of width w and height h; the pixel of that image at column
    i, row j is the pixel of the displayed canvas at (x+i, y+j).  The
    displayed canvas is the template's canvas as it is when the drag ends:
    the rendered page with the selection outline stroked on it.  Holds in
    both versions of the component. *)
Theorem drag_exports_selected_region {R : Rasterizer}
    (a : Current.AppComponent) (b : Copy.AppComponent) (x y w h : Z)
    (moves : list MouseEvent) :
  0 < w -> 0 < h ->
  let da := Current.drag (mkMouse x y) (moves ++ [mkMouse (x + w) (y + h)]) a in
  let db := Copy.drag (mkMouse x y) (moves ++ [mkMouse (x + w) (y + h)]) b in
  (exists img,
      Current.body (Current.endCrop da) = Current.body a ++ exported img
      /\ Current.outputImages (Current.endCrop da) = Current.outputImages a ++ [img]
      /\ width img = w /\ height img = h
      /\ forall i j, 0 <= i < w -> 0 <= j < h ->
           getPixel img i j = getPixel (Current.pdfCanvas da) (x + i) (y + j))
  /\ (exists img,
      Copy.body (Copy.endCrop db) = Copy.body b ++ exported img
      /\ Copy.outputImages (Copy.endCrop db) = Copy.outputImages b ++ [img]
      /\ width img = w /\ height img = h
      /\ forall i j, 0 <= i < w -> 0 <= j < h ->
           getPixel img i j = getPixel (Copy.pdfCanvas db) (x + i) (y + j))
  /\ Current.pdfCanvas da
     = strokeRect x y w h "red" 2
         (drawImage (Current.canvas a)
            (clearAll (Current.pdfCanvas (Current.drag (mkMouse x y) moves a))))
  /\ Copy.pdfCanvas db
     = strokeRect x y w h "red" 2
         (drawImage (Copy.canvas b)
            (clearAll (Copy.pdfCanvas (Copy.drag (mkMouse x y) moves b)))).
Proof.
  intros Hw Hh da db.
  destruct (Current_drag_state a x y w h moves) as (_ & Hra & _ & Hba & _ & Hpa).
  destruct (Copy_drag_state b x y w h moves) as (_ & Hrb & _ & Hbb & _ & Hpb).
  fold da in Hra, Hba, Hpa. fold db in Hrb, Hbb, Hpb.
  unfold Current.cropRect in Hra. unfold Copy.cropRect in Hrb.
  injection Hra as Hax Hay Haw Hah. injection Hrb as Hbx Hby Hbw Hbh.
  pose proof (Current_endCrop_valid da) as Ha.
  pose proof (Copy_endCrop_valid db) as Hb.
  rewrite Hax, Hay, Haw, Hah, Hba in Ha. rewrite Hbx, Hby, Hbw, Hbh, Hbb in Hb.
  specialize (Ha Hw Hh). specialize (Hb Hw Hh).
  split; [|split; [|split]].
  - exists (region (Current.pdfCanvas da) x y w h).
    split; [exact Ha|]. split.
    + unfold Current.outputImages. rewrite Ha. apply outputs_of_exported.
    + apply region_spec.
  - exists (region (Copy.pdfCanvas db) x y w h).
    split; [exact Hb|]. split.
    + unfold Copy.outputImages. rewrite Hb. apply outputs_of_exported.
    + apply region_spec.
  - exact Hpa.
  - exact Hpb.
Qed.

(** A drag from (2,1) through (3,3) and (7,5) to (5,3) on the loaded page. *)
Lemma drag_exports_selected_region_witness :
  0 < 3 /\ 0 < 2 /\
  exists img,
    Current.outputImages
      (Current.endCrop
         (@Current.drag squareStroke (mkMouse 2 1)
            ([mkMouse 3 3; mkMouse 7 5] ++ [mkMouse (2 + 3) (1 + 2)]) loadedCurrent))
    = [img]
    /\ width img = 3 /\ height img = 2.
Proof.
  split; [lia|]. split; [lia|].
  destruct (@drag_exports_selected_region squareStroke loadedCurrent loadedCopy
              2 1 3 2 [mkMouse 3 3; mkMouse 7 5] ltac:(lia) ltac:(lia))
    as [[img [_ [Hout [Hwd [Hht _]]]]] _].
  exists img. split; [exact Hout|]. split; assumption.
Defined.

(** [endCrop] on a rectangle that is empty or has a non-positive side: only
    the selecting flag and, past the zero test, the console change. *)
Lemma Current_endCrop_rejected (s : Current.AppComponent) :
  Current.cropWidth s <= 0 \/ Current.cropHeight s <= 0 ->
  Current.endCrop s
  = Current.set_console
      (Current.console s ++
         (if (Current.cropWidth s =? 0) || (Current.cropHeight s =? 0)
          then [] else ["Invalid crop area"%string]))
      (Current.set_isSelecting false s).
Proof.
  intros Hbad. destruct s. crop_unfold.
  destruct ((cropWidth =? 0) || (cropHeight =? 0)) eqn:Hzero.
  - rewrite app_nil_r. reflexivity.
  - unfold Current.cropImage. crop_unfold.
    replace ((cropWidth <=? 0) || (cropHeight <=? 0)) with true
      by (symmetry; apply orb_true_iff; rewrite !Z.leb_le; exact Hbad).
    reflexivity.
Qed.

Lemma Copy_endCrop_rejected (s : Copy.AppComponent) :
  Copy.cropWidth s <= 0 \/ Copy.cropHeight s <= 0 ->
  Copy.endCrop s
  = Copy.set_console
      (Copy.console s ++
         (if (Copy.cropWidth s =? 0) || (Copy.cropHeight s =? 0)
          then [] else ["Invalid crop area"%string]))
      (Copy.set_isSelecting false s).
Proof.
  intros Hbad. destruct s. crop_unfold.
  destruct ((cropWidth =? 0) || (cropHeight =? 0)) eqn:Hzero.
  - rewrite app_nil_r. reflexivity.
  - unfold Copy.cropImage. crop_unfold.
    replace ((cropWidth <=? 0) || (cropHeight <=? 0)) with true
      by (symmetry; apply orb_true_iff; rewrite !Z.leb_le; exact Hbad).
    reflexivity.
Qed.

Lemma app_cons_neq {A} (l t : list A) (x : A) : l ++ x :: t <> l.
Proof.
  intros Heq. apply (f_equal (@List.length A)) in Heq.
  rewrite length_app in Heq. cbn [List.length] in Heq. lia.
Qed.

(** A call of [cropImage] shows: it appends to the body or to the console. *)
Lemma Current_cropImage_observable (s : Current.AppComponent) :
  Current.body (Current.cropImage s) <> Current.body s
  \/ Current.console (Current.cropImage s) <> Current.console s.
Proof.
  destruct (Z.le_gt_cases (Current.cropWidth s) 0) as [Hw|Hw];
    [|destruct (Z.le_gt_cases (Current.cropHeight s) 0) as [Hh|Hh]].
  - right. unfold Current.cropImage.
    replace ((Current.cropWidth s <=? 0) || (Current.cropHeight s <=? 0)) with true
      by (symmetry; apply orb_true_iff; rewrite !Z.leb_le; now left).
    destruct s. apply app_cons_neq.
  - right. unfold Current.cropImage.
    replace ((Current.cropWidth s <=? 0) || (Current.cropHeight s <=? 0)) with true
      by (symmetry; apply orb_true_iff; rewrite !Z.leb_le; now right).
    destruct s. apply app_cons_neq.
  - left. rewrite Current_cropImage_valid by lia.
    destruct s. apply app_cons_neq.
Qed.

Lemma Copy_cropImage_observable (s : Copy.AppComponent) :
  Copy.body (Copy.cropImage s) <> Copy.body s
  \/ Copy.console (Copy.cropImage s) <> Copy.console s.
Proof.
  destruct (Z.le_gt_cases (Copy.cropWidth s) 0) as [Hw|Hw];
    [|destruct (Z.le_gt_cases (Copy.cropHeight s) 0) as [Hh|Hh]].
  - right. unfold Copy.cropImage.
    replace ((Copy.cropWidth s <=? 0) || (Copy.cropHeight s <=? 0)) with true
      by (symmetry; apply orb_true_iff; rewrite !Z.leb_le; now left).
    destruct s. apply app_cons_neq.
  - right. unfold Copy.cropImage.
    replace ((Copy.cropWidth s <=? 0) || (Copy.cropHeight s <=? 0)) with true
      by (symmetry; apply orb_true_iff; rewrite !Z.leb_le; now right).
    destruct s. apply app_cons_neq.
  - left. rewrite Copy_cropImage_valid by lia.
    destruct s. apply app_cons_neq.
Qed.

Lemma Current_cropImage_isSelecting (s : Current.AppComponent) :
  Current.isSelecting (Current.cropImage s) = Current.isSelecting s
  /\ Current.cropRect (Current.cropImage s) = Current.cropRect s.
Proof.
  unfold Current.cropImage.
  destruct ((Current.cropWidth s <=? 0) || (Current.cropHeight s <=? 0)).
  - destruct s. split; reflexivity.
  - destruct (getImageData _ _ _ _ _); destruct s; split; reflexivity.
Qed.

Lemma Copy_cropImage_isSelecting (s : Copy.AppComponent) :
  Copy.isSelecting (Copy.cropImage s) = Copy.isSelecting s
  /\ Copy.cropRect (Copy.cropImage s) = Copy.cropRect s.
Proof.
  unfold Copy.cropImage.
  destruct ((Copy.cropWidth s <=? 0) || (Copy.cropHeight s <=? 0)).
  - destruct s. split; reflexivity.
  - destruct (getImageData _ _ _ _ _); destruct s; split; reflexivity.
Qed.

(** C2.  What the code does on a drag with a negative delta: for every drag
    whose width and height are both non-zero and one of them negative,
    crop-end reaches [cropImage], whose test [cropWidth <= 0 || cropHeight <= 0]
    rejects the rectangle: nothing is appended to the page, no image is
    offered, and 'Invalid crop area' is logged.  The specification asks for
    an image of |w| by |h| here, and so do the [Math.abs] sizing of the
    cropped canvas and the comment on the test (non-zero width/height). *)
Theorem negative_drag_exports_nothing {R : Rasterizer}
    (a : Current.AppComponent) (x y w h : Z) (moves : list MouseEvent) :
  w <> 0 -> h <> 0 -> w < 0 \/ h < 0 ->
  let da := Current.drag (mkMouse x y) (moves ++ [mkMouse (x + w) (y + h)]) a in
  Current.cropRect da = (x, y, w, h)
  /\ Current.body (Current.endCrop da) = Current.body a
  /\ Current.outputImages (Current.endCrop da) = Current.outputImages a
  /\ Current.console (Current.endCrop da)
     = Current.console a ++ ["Invalid crop area"%string].
Proof.
  intros Hw Hh Hneg da.
  destruct (Current_drag_state a x y w h moves) as (_ & Hrect & _ & Hbody & Hlog & _).
  fold da in Hrect, Hbody, Hlog.
  assert (Hwd : Current.cropWidth da = w) by (unfold Current.cropRect in Hrect; congruence).
  assert (Hht : Current.cropHeight da = h) by (unfold Current.cropRect in Hrect; congruence).
  split; [exact Hrect|].
  unfold Current.outputImages.
  rewrite Current_endCrop_rejected by lia.
  rewrite Hwd, Hht.
  replace ((w =? 0) || (h =? 0)) with false
    by (symmetry; apply orb_false_iff; split; apply Z.eqb_neq; assumption).
  rewrite <- Hbody, <- Hlog.
  destruct da. repeat split; reflexivity.
Qed.

(** The drag from (5,4) up and left to (2,1) on the loaded page. *)
Lemma negative_drag_exports_nothing_witness :
  -3 <> 0 /\ (-3 < 0 \/ -3 < 0) /\
  Current.outputImages (@Current.run squareStroke upLeftDrag loadedCurrent) = []
  /\ Current.console (@Current.run squareStroke upLeftDrag loadedCurrent)
     = ["Invalid crop area"%string].
Proof.
  split; [lia|]. split; [left; lia|].
  destruct (@negative_drag_exports_nothing squareStroke loadedCurrent 5 4 (-3) (-3) []
              ltac:(lia) ltac:(lia) ltac:(left; lia)) as [_ [_ [Hout Hlog]]].
  split; [exact Hout | exact Hlog].
Defined.

(** C5, as stated, fails on a click without a drag: the rectangle is empty,
    [endCrop] returns before [cropImage] and nothing is logged. *)
Lemma zero_size_abort_logs_nothing :
  (Current.cropWidth pressedCurrent <= 0 \/ Current.cropHeight pressedCurrent <= 0)
  /\ Current.console (Current.endCrop pressedCurrent) = Current.console pressedCurrent
  /\ ~ abortsWithLog pressedCurrent (Current.endCrop pressedCurrent).
Proof.
  split; [left; vm_compute; discriminate|].
  split; [vm_compute; reflexivity|].
  intros [_ [[msg Hmsg] _]].
  vm_compute in Hmsg. discriminate Hmsg.
Qed.

(** C5, amended.  For every crop-end on a rectangle whose width or height is
    zero or negative, nothing is appended to the page and no image is offered,
    the crop rectangle is as before and the selecting flag is cleared; the
    state changes in nothing else but the console, which gains 'Invalid crop
    area' when width and height are both non-zero and gains nothing when one
    of them is zero.  Holds in both versions of the component. *)
Theorem invalid_crop_aborts (a : Current.AppComponent) (b : Copy.AppComponent) :
  Current.cropWidth a <= 0 \/ Current.cropHeight a <= 0 ->
  Copy.cropWidth b <= 0 \/ Copy.cropHeight b <= 0 ->
  (Current.endCrop a
   = Current.set_console
       (Current.console a ++
          (if (Current.cropWidth a =? 0) || (Current.cropHeight a =? 0)
           then [] else ["Invalid crop area"%string]))
       (Current.set_isSelecting false a)
   /\ Current.body (Current.endCrop a) = Current.body a
   /\ Current.outputImages (Current.endCrop a) = Current.outputImages a
   /\ Current.cropRect (Current.endCrop a) = Current.cropRect a
   /\ Current.isSelecting (Current.endCrop a) = false)
  /\
  (Copy.endCrop b
   = Copy.set_console
       (Copy.console b ++
          (if (Copy.cropWidth b =? 0) || (Copy.cropHeight b =? 0)
           then [] else ["Invalid crop area"%string]))
       (Copy.set_isSelecting false b)
   /\ Copy.body (Copy.endCrop b) = Copy.body b
   /\ Copy.outputImages (Copy.endCrop b) = Copy.outputImages b
   /\ Copy.cropRect (Copy.endCrop b) = Copy.cropRect b
   /\ Copy.isSelecting (Copy.endCrop b) = false).
Proof.
  intros Ha Hb. split.
  - unfold Current.outputImages.
    rewrite (Current_endCrop_rejected a Ha).
    destruct a. repeat split; reflexivity.
  - unfold Copy.outputImages.
    rewrite (Copy_endCrop_rejected b Hb).
    destruct b. repeat split; reflexivity.
Qed.

(** Mouse down and up at (5,4) on the loaded page. *)
Lemma invalid_crop_aborts_witness :
  (Current.cropWidth pressedCurrent <= 0 \/ Current.cropHeight pressedCurrent <= 0)
  /\ (Copy.cropWidth pressedCopy <= 0 \/ Copy.cropHeight pressedCopy <= 0)
  /\ Current.body (Current.endCrop pressedCurrent) = Current.body pressedCurrent
  /\ Copy.body (Copy.endCrop pressedCopy) = Copy.body pressedCopy.
Proof.
  assert (Ha : Current.cropWidth pressedCurrent <= 0
               \/ Current.cropHeight pressedCurrent <= 0)
    by (left; vm_compute; discriminate).
  assert (Hb : Copy.cropWidth pressedCopy <= 0 \/ Copy.cropHeight pressedCopy <= 0)
    by (left; vm_compute; discriminate).
  split; [exact Ha|]. split; [exact Hb|].
  destruct (invalid_crop_aborts pressedCurrent pressedCopy Ha Hb)
    as [[_ [Hbody _]] [_ [Hbody' _]]].
  split; [exact Hbody | exact Hbody'].
Defined.

(** C9.  Crop-start sets the crop width and height to 0, and a crop-end that
    follows it with no mouse-move in between only clears the selecting flag:
    nothing is appended to the page, no image is offered, nothing is logged.
    [cropImage] is not called, since a call of it appends to the body or to
    the console.  Holds in both versions of the component. *)
Theorem click_without_drag_exports_nothing
    (a : Current.AppComponent) (b : Copy.AppComponent) (e : MouseEvent) :
  (Current.cropWidth (Current.startCrop e a) = 0
   /\ Current.cropHeight (Current.startCrop e a) = 0
   /\ Current.endCrop (Current.startCrop e a)
      = Current.set_isSelecting false (Current.startCrop e a)
   /\ Current.body (Current.endCrop (Current.startCrop e a)) = Current.body a
   /\ Current.outputImages (Current.endCrop (Current.startCrop e a))
      = Current.outputImages a
   /\ Current.console (Current.endCrop (Current.startCrop e a)) = Current.console a
   /\ forall s, Current.body (Current.cropImage s) <> Current.body s
                \/ Current.console (Current.cropImage s) <> Current.console s)
  /\
  (Copy.cropWidth (Copy.startCrop e b) = 0
   /\ Copy.cropHeight (Copy.startCrop e b) = 0
   /\ Copy.endCrop (Copy.startCrop e b)
      = Copy.set_isSelecting false (Copy.startCrop e b)
   /\ Copy.body (Copy.endCrop (Copy.startCrop e b)) = Copy.body b
   /\ Copy.outputImages (Copy.endCrop (Copy.startCrop e b)) = Copy.outputImages b
   /\ Copy.console (Copy.endCrop (Copy.startCrop e b)) = Copy.console b
   /\ forall s, Copy.body (Copy.cropImage s) <> Copy.body s
                \/ Copy.console (Copy.cropImage s) <> Copy.console s).
Proof.
  split.
  - destruct a, e. unfold Current.outputImages. crop_unfold. cbn [Z.eqb orb].
    repeat split; try reflexivity. apply Current_cropImage_observable.
  - destruct b, e. unfold Copy.outputImages. crop_unfold. cbn [Z.eqb orb].
    repeat split; try reflexivity. apply Copy_cropImage_observable.
Qed.

Lemma Current_moves_ignored {R : Rasterizer} (moves : list MouseEvent)
    (s : Current.AppComponent) :
  Current.isSelecting s = false ->
  Current.run (map Current.OnMouseMove moves) s = s.
Proof.
  intros Hoff. induction moves as [|e moves IH]; [reflexivity|].
  cbn [map]. unfold Current.run in *. cbn [fold_left Current.handle].
  unfold Current.onMouseMove. rewrite Hoff. exact IH.
Qed.

Lemma Copy_moves_ignored {R : Rasterizer} (moves : list MouseEvent)
    (s : Copy.AppComponent) :
  Copy.isSelecting s = false ->
  Copy.run (map Copy.OnMouseMove moves) s = s.
Proof.
  intros Hoff. induction moves as [|e moves IH]; [reflexivity|].
  cbn [map]. unfold Copy.run in *. cbn [fold_left Copy.handle].
  unfold Copy.onMouseMove. rewrite Hoff. exact IH.
Qed.

Lemma Current_endCrop_isSelecting (s : Current.AppComponent) :
  Current.isSelecting (Current.endCrop s) = false.
Proof.
  unfold Current.endCrop.
  destruct ((Current.cropWidth s =? 0) || (Current.cropHeight s =? 0)).
  - destruct s. reflexivity.
  - rewrite (proj1 (Current_cropImage_isSelecting _)). destruct s. reflexivity.
Qed.

Lemma Copy_endCrop_isSelecting (s : Copy.AppComponent) :
  Copy.isSelecting (Copy.endCrop s) = false.
Proof.
  unfold Copy.endCrop.
  destruct ((Copy.cropWidth s =? 0) || (Copy.cropHeight s =? 0)).
  - destruct s. reflexivity.
  - rewrite (proj1 (Copy_cropImage_isSelecting _)). destruct s. reflexivity.
Qed.

(** C10.  After every call of [endCrop], on a valid selection or not,
    [isSelecting] is false, and any number of mouse-move events that follow
    leave the whole state, and so the crop rectangle (start point, width,
    height), as [endCrop] left it.  Holds in both versions of the
    component. *)
Theorem endCrop_clears_selecting {R : Rasterizer}
    (a : Current.AppComponent) (b : Copy.AppComponent) (moves : list MouseEvent) :
  (Current.isSelecting (Current.endCrop a) = false
   /\ Current.run (map Current.OnMouseMove moves) (Current.endCrop a)
      = Current.endCrop a
   /\ Current.cropRect (Current.run (map Current.OnMouseMove moves) (Current.endCrop a))
      = Current.cropRect a)
  /\
  (Copy.isSelecting (Copy.endCrop b) = false
   /\ Copy.run (map Copy.OnMouseMove moves) (Copy.endCrop b) = Copy.endCrop b
   /\ Copy.cropRect (Copy.run (map Copy.OnMouseMove moves) (Copy.endCrop b))
      = Copy.cropRect b).
Proof.
  split.
  - pose proof (Current_endCrop_isSelecting a) as Hoff.
    rewrite (Current_moves_ignored moves _ Hoff).
    repeat split; try assumption.
    unfold Current.endCrop.
    destruct ((Current.cropWidth a =? 0) || (Current.cropHeight a =? 0)).
    + destruct a. reflexivity.
    + rewrite (proj2 (Current_cropImage_isSelecting _)). destruct a. reflexivity.
  - pose proof (Copy_endCrop_isSelecting b) as Hoff.
    rewrite (Copy_moves_ignored moves _ Hoff).
    repeat split; try assumption.
    unfold Copy.endCrop.
    destruct ((Copy.cropWidth b =? 0) || (Copy.cropHeight b =? 0)).
    + destruct b. reflexivity.
    + rewrite (proj2 (Copy_cropImage_isSelecting _)). destruct b. reflexivity.
Qed.

(** ** Page navigation *)

Ltac nav_unfold :=
  cbv beta iota zeta delta
    [Current.renderPage Current.loadPdf Current.goToPreviousPage
     Current.goToNextPage Current.displayCanvas Current.cropRect
     Current.set_pdfDoc Current.set_totalPages Current.set_currentPage
     Current.set_canvas Current.set_pdfCanvas
     Current.pdfCanvas Current.pdfDoc Current.currentPage Current.totalPages
     Current.canvas Current.cropStartX Current.cropStartY Current.cropWidth
     Current.cropHeight Current.isSelecting Current.body Current.console
     Copy.renderPage Copy.loadPdf Copy.goToPreviousPage
     Copy.goToNextPage Copy.displayCanvas Copy.cropRect
     Copy.set_pdfDoc Copy.set_pageNum Copy.set_page
     Copy.set_canvas Copy.set_pdfCanvas
     Copy.pdfCanvas Copy.pdfDoc Copy.pageNum Copy.page
     Copy.canvas Copy.cropStartX Copy.cropStartY Copy.cropWidth
     Copy.cropHeight Copy.isSelecting Copy.body Copy.console] in *.

(** [renderPage] assigns the page index exactly when the number passes the
    bounds check; the page count, the document and the crop state stay. *)
Lemma Current_renderPage_index (n : Z) (s : Current.AppComponent) :
  Current.currentPage (Current.renderPage n s)
  = (if (n <? 1) || (n >? Current.totalPages s) then Current.currentPage s else n)
  /\ Current.totalPages (Current.renderPage n s) = Current.totalPages s
  /\ Current.pdfDoc (Current.renderPage n s) = Current.pdfDoc s
  /\ Current.isSelecting (Current.renderPage n s) = Current.isSelecting s
  /\ Current.cropRect (Current.renderPage n s) = Current.cropRect s.
Proof.
  destruct s as [pc [doc|] cur tot cv sx sy cw chh sel bd co]; nav_unfold;
    destruct ((n <? 1) || (n >? tot)); try (repeat split; reflexivity).
  destruct (getPage doc n); repeat split; reflexivity.
Qed.

(** In the copy, [renderPage] assigns neither the page index nor the
    document. *)
Lemma Copy_renderPage_index (n : Z) (s : Copy.AppComponent) :
  Copy.pageNum (Copy.renderPage n s) = Copy.pageNum s
  /\ Copy.pdfDoc (Copy.renderPage n s) = Copy.pdfDoc s
  /\ Copy.isSelecting (Copy.renderPage n s) = Copy.isSelecting s
  /\ Copy.cropRect (Copy.renderPage n s) = Copy.cropRect s.
Proof.
  destruct s as [pc [doc|] num pg cv sx sy cw chh sel bd co]; nav_unfold;
    try (repeat split; reflexivity).
  destruct (getPage doc n); repeat split; reflexivity.
Qed.

Lemma Current_goToNextPage_index (s : Current.AppComponent) :
  Current.currentPage (Current.goToNextPage s)
  = (if (Current.currentPage s <? Current.totalPages s)
        && negb ((Current.currentPage s + 1 <? 1)
                 || (Current.currentPage s + 1 >? Current.totalPages s))
     then Current.currentPage s + 1 else Current.currentPage s)
  /\ Current.totalPages (Current.goToNextPage s) = Current.totalPages s.
Proof.
  unfold Current.goToNextPage.
  destruct (Current.currentPage s <? Current.totalPages s); [|split; reflexivity].
  destruct (Current_renderPage_index (Current.currentPage s + 1) s) as [Hcur [Htot _]].
  rewrite Hcur, Htot. cbn [andb].
  destruct ((Current.currentPage s + 1 <? 1)
            || (Current.currentPage s + 1 >? Current.totalPages s));
    split; reflexivity.
Qed.

Lemma Current_goToPreviousPage_index (s : Current.AppComponent) :
  Current.currentPage (Current.goToPreviousPage s)
  = (if (Current.currentPage s >? 1)
        && negb ((Current.currentPage s - 1 <? 1)
                 || (Current.currentPage s - 1 >? Current.totalPages s))
     then Current.currentPage s - 1 else Current.currentPage s)
  /\ Current.totalPages (Current.goToPreviousPage s) = Current.totalPages s.
Proof.
  unfold Current.goToPreviousPage.
  destruct (Current.currentPage s >? 1); [|split; reflexivity].
  destruct (Current_renderPage_index (Current.currentPage s - 1) s) as [Hcur [Htot _]].
  rewrite Hcur, Htot. cbn [andb].
  destruct ((Current.currentPage s - 1 <? 1)
            || (Current.currentPage s - 1 >? Current.totalPages s));
    split; reflexivity.
Qed.

Lemma Copy_goToNextPage_index (s : Copy.AppComponent) (doc : PdfDocument) :
  Copy.pdfDoc s = Some doc ->
  Copy.pageNum (Copy.goToNextPage s)
  = (if Copy.pageNum s >=? numPages doc then Copy.pageNum s else Copy.pageNum s + 1)
  /\ Copy.pdfDoc (Copy.goToNextPage s) = Some doc.
Proof.
  intros Hdoc. unfold Copy.goToNextPage. rewrite Hdoc.
  destruct (Copy.pageNum s >=? numPages doc); [split; [reflexivity|exact Hdoc]|].
  cbv zeta.
  destruct (Copy_renderPage_index
              (Copy.pageNum (Copy.set_pageNum (Copy.pageNum s + 1) s))
              (Copy.set_pageNum (Copy.pageNum s + 1) s)) as [Hnum [Hd _]].
  rewrite Hnum, Hd. destruct s. split; [reflexivity|exact Hdoc].
Qed.

Lemma Copy_goToPreviousPage_index (s : Copy.AppComponent) :
  Copy.pageNum (Copy.goToPreviousPage s)
  = (if Copy.pageNum s <=? 1 then Copy.pageNum s else Copy.pageNum s - 1)
  /\ Copy.pdfDoc (Copy.goToPreviousPage s) = Copy.pdfDoc s.
Proof.
  unfold Copy.goToPreviousPage.
  destruct (Copy.pageNum s <=? 1); [split; reflexivity|].
  cbv zeta.
  destruct (Copy_renderPage_index
              (Copy.pageNum (Copy.set_pageNum (Copy.pageNum s - 1) s))
              (Copy.set_pageNum (Copy.pageNum s - 1) s)) as [Hnum [Hd _]].
  rewrite Hnum, Hd. destruct s. split; reflexivity.
Qed.

(** [loadPdf] never assigns the page index; with a readable first file it
    assigns the page count. *)
Lemma Current_loadPdf_index (files : list File) (s : Current.AppComponent) :
  Current.currentPage (Current.loadPdf files s) = Current.currentPage s.
Proof.
  destruct files as [|[doc|] rest]; try reflexivity.
  unfold Current.loadPdf. cbv zeta.
  rewrite (proj1 (Current_renderPage_index _ _)).
  destruct ((_ <? 1) || _); destruct s; reflexivity.
Qed.

Lemma Current_loadPdf_totalPages (doc : PdfDocument) (rest : list File)
    (s : Current.AppComponent) :
  Current.totalPages (Current.loadPdf (Some doc :: rest) s) = numPages doc
  /\ Current.pdfDoc (Current.loadPdf (Some doc :: rest) s) = Some doc.
Proof.
  unfold Current.loadPdf. cbv zeta.
  destruct (Current_renderPage_index
              (Current.currentPage
                 (Current.set_totalPages (numPages doc)
                    (Current.set_pdfDoc (Some doc) s)))
              (Current.set_totalPages (numPages doc)
                 (Current.set_pdfDoc (Some doc) s))) as [_ [Htot [Hdoc _]]].
  rewrite Htot, Hdoc. destruct s. split; reflexivity.
Qed.

Lemma Copy_loadPdf_index (files : list File) (s : Copy.AppComponent) :
  Copy.pageNum (Copy.loadPdf files s) = Copy.pageNum s.
Proof.
  destruct files as [|[doc|] rest]; try reflexivity.
  unfold Copy.loadPdf. cbv zeta.
  rewrite (proj1 (Copy_renderPage_index _ _)).
  destruct s; reflexivity.
Qed.

(** Page-forward and page-back keep an index that is within 1 and the page
    count within them. *)
Lemma Current_navigation_keeps_bounds (s : Current.AppComponent) :
  1 <= Current.currentPage s <= Current.totalPages s ->
  (1 <= Current.currentPage (Current.goToNextPage s)
     <= Current.totalPages (Current.goToNextPage s))
  /\ (1 <= Current.currentPage (Current.goToPreviousPage s)
        <= Current.totalPages (Current.goToPreviousPage s)).
Proof.
  intros Hin.
  destruct (Current_goToNextPage_index s) as [Hn Hnt].
  destruct (Current_goToPreviousPage_index s) as [Hp Hpt].
  rewrite Hn, Hnt, Hp, Hpt. clear Hn Hnt Hp Hpt. split.
  - destruct (Z.ltb_spec (Current.currentPage s) (Current.totalPages s));
      cbn [andb]; [|lia].
    destruct (_ || _); cbn [negb]; lia.
  - destruct (Z.gtb_spec (Current.currentPage s) 1); cbn [andb]; [|lia].
    destruct (_ || _); cbn [negb]; lia.
Qed.

(** C3.  What the code does on a document load: [loadPdf] assigns the page
    count and calls [renderPage(this.currentPage)], so the page index after a
    load is the index held before it, in both versions of the component.
    With the three-page document on page 2, loading the one-page document
    leaves the index at 2 with a page count of 1, and the displayed canvas
    still shows page 2 of the old document.  The specification, and the
    comment on the call (render the first page), ask for index 1. *)
Theorem loadPdf_keeps_page_index :
  (forall files s,
      Current.currentPage (Current.loadPdf files s) = Current.currentPage s)
  /\ (forall files s, Copy.pageNum (Copy.loadPdf files s) = Copy.pageNum s)
  /\ (forall doc rest s,
      Current.totalPages (Current.loadPdf (Some doc :: rest) s) = numPages doc)
  /\ Current.currentPage middleCurrent = 2
  /\ Current.currentPage reloadedCurrent = 2
  /\ Current.totalPages reloadedCurrent = 1
  /\ Current.pdfDoc reloadedCurrent = Some onePageDoc
  /\ Current.pdfCanvas reloadedCurrent = Current.pdfCanvas middleCurrent
  /\ Copy.pageNum reloadedCopy = 2
  /\ Copy.pdfDoc reloadedCopy = Some onePageDoc.
Proof.
  split; [exact Current_loadPdf_index|].
  split; [exact Copy_loadPdf_index|].
  split; [intros doc rest s; apply Current_loadPdf_totalPages|].
  repeat split; vm_compute; reflexivity.
Qed.

(** C4.  Page-back on page 1 and page-forward on the last page return the
    state as it is: the page index, the offscreen canvas and the displayed
    canvas are untouched.  Holds in both versions of the component; the copy
    reads the page count from the loaded document. *)
Theorem out_of_range_navigation_noop
    (first last : Current.AppComponent) (first' last' : Copy.AppComponent)
    (doc : PdfDocument) :
  Current.currentPage first = 1 ->
  Current.currentPage last = Current.totalPages last ->
  Copy.pageNum first' = 1 ->
  Copy.pdfDoc last' = Some doc ->
  Copy.pageNum last' = numPages doc ->
  Current.goToPreviousPage first = first
  /\ Current.goToNextPage last = last
  /\ Copy.goToPreviousPage first' = first'
  /\ Copy.goToNextPage last' = last'.
Proof.
  intros Hfirst Hlast Hfirst' Hdoc Hlast'.
  unfold Current.goToPreviousPage, Current.goToNextPage,
    Copy.goToPreviousPage, Copy.goToNextPage.
  rewrite Hfirst, Hlast, Hfirst', Hdoc, Hlast'.
  rewrite Z.ltb_irrefl, Z.geb_leb, !Z.leb_refl.
  repeat split; reflexivity.
Qed.

(** The one-page document: page 1 is the first and the last page. *)
Lemma out_of_range_navigation_noop_witness :
  Current.currentPage loadedCurrent = 1
  /\ Current.currentPage loadedCurrent = Current.totalPages loadedCurrent
  /\ Copy.pageNum loadedCopy = 1
  /\ Copy.pdfDoc loadedCopy = Some onePageDoc
  /\ Copy.pageNum loadedCopy = numPages onePageDoc
  /\ Current.goToPreviousPage loadedCurrent = loadedCurrent
  /\ Current.goToNextPage loadedCurrent = loadedCurrent
  /\ Copy.goToPreviousPage loadedCopy = loadedCopy
  /\ Copy.goToNextPage loadedCopy = loadedCopy.
Proof.
  repeat (split; [vm_compute; reflexivity|]).
  apply (out_of_range_navigation_noop loadedCurrent loadedCurrent
           loadedCopy loadedCopy onePageDoc);
    vm_compute; reflexivity.
Defined.

(** C6.  From a page index p with 1 <= p < page count, page-forward moves
    to p+1 and page-back then moves to p again.  Holds in both versions of
    the component. *)
Theorem next_then_previous_restores_index
    (a : Current.AppComponent) (b : Copy.AppComponent) (doc : PdfDocument) :
  1 <= Current.currentPage a < Current.totalPages a ->
  Copy.pdfDoc b = Some doc ->
  1 <= Copy.pageNum b < numPages doc ->
  (Current.currentPage (Current.goToNextPage a) = Current.currentPage a + 1
   /\ Current.currentPage (Current.goToPreviousPage (Current.goToNextPage a))
      = Current.currentPage a)
  /\
  (Copy.pageNum (Copy.goToNextPage b) = Copy.pageNum b + 1
   /\ Copy.pageNum (Copy.goToPreviousPage (Copy.goToNextPage b)) = Copy.pageNum b).
Proof.
  intros Ha Hdoc Hb. split.
  - destruct (Current_goToNextPage_index a) as [Hn Hnt].
    destruct (Current_goToPreviousPage_index (Current.goToNextPage a)) as [Hp _].
    assert (Hnext : Current.currentPage (Current.goToNextPage a)
                    = Current.currentPage a + 1).
    { rewrite Hn.
      destruct (Z.ltb_spec (Current.currentPage a) (Current.totalPages a)); [|lia].
      destruct (Z.ltb_spec (Current.currentPage a + 1) 1); [lia|].
      destruct (Z.gtb_spec (Current.currentPage a + 1) (Current.totalPages a)); [lia|].
      reflexivity. }
    split; [exact Hnext|].
    rewrite Hp, Hnt, Hnext.
    destruct (Z.gtb_spec (Current.currentPage a + 1) 1); [|lia].
    destruct (Z.ltb_spec (Current.currentPage a + 1 - 1) 1); [lia|].
    destruct (Z.gtb_spec (Current.currentPage a + 1 - 1) (Current.totalPages a)); [lia|].
    cbn [andb orb negb]. lia.
  - destruct (Copy_goToNextPage_index b doc Hdoc) as [Hn _].
    destruct (Copy_goToPreviousPage_index (Copy.goToNextPage b)) as [Hp _].
    assert (Hnext : Copy.pageNum (Copy.goToNextPage b) = Copy.pageNum b + 1).
    { rewrite Hn. rewrite Z.geb_leb.
      destruct (Z.leb_spec (numPages doc) (Copy.pageNum b)); [lia|reflexivity]. }
    split; [exact Hnext|].
    rewrite Hp, Hnext.
    destruct (Z.leb_spec (Copy.pageNum b + 1) 1); lia.
Qed.

(** Page 2 of the three-page document. *)
Lemma next_then_previous_restores_index_witness :
  1 <= Current.currentPage middleCurrent < Current.totalPages middleCurrent
  /\ Copy.pdfDoc middleCopy = Some threePageDoc
  /\ 1 <= Copy.pageNum middleCopy < numPages threePageDoc
  /\ Current.currentPage (Current.goToPreviousPage (Current.goToNextPage middleCurrent)) = 2
  /\ Copy.pageNum (Copy.goToPreviousPage (Copy.goToNextPage middleCopy)) = 2.
Proof.
  assert (Ha : 1 <= Current.currentPage middleCurrent < Current.totalPages middleCurrent)
    by (vm_compute; split; [discriminate|reflexivity]).
  assert (Hdoc : Copy.pdfDoc middleCopy = Some threePageDoc) by (vm_compute; reflexivity).
  assert (Hb : 1 <= Copy.pageNum middleCopy < numPages threePageDoc)
    by (vm_compute; split; [discriminate|reflexivity]).
  split; [exact Ha|]. split; [exact Hdoc|]. split; [exact Hb|].
  destruct (next_then_previous_restores_index middleCurrent middleCopy threePageDoc
              Ha Hdoc Hb) as [[_ Hback] [_ Hback']].
  split; [exact Hback | exact Hback'].
Defined.

(** C7.  What the code does to the bounds of the page index: on the last
    page of the three-page document the index is within bounds; loading the
    one-page document then leaves the index at 3 with a page count of 1, in
    both versions of the component.  The index stays within bounds under
    page-forward and page-back ([Current_navigation_keeps_bounds]); it is the
    load that lets it escape, as it never assigns the index. *)
Theorem page_index_escapes_bounds_after_reload :
  pageIndexInBounds
    (Current.goToNextPage (Current.goToNextPage
       (Current.loadPdf [Some threePageDoc] Current.initial)))
  /\ Current.pdfDoc lastPageThenReloadCurrent = Some onePageDoc
  /\ Current.currentPage lastPageThenReloadCurrent = 3
  /\ Current.totalPages lastPageThenReloadCurrent = 1
  /\ ~ pageIndexInBounds lastPageThenReloadCurrent
  /\ Copy.pdfDoc lastPageThenReloadCopy = Some onePageDoc
  /\ Copy.pageNum lastPageThenReloadCopy = 3
  /\ numPages onePageDoc = 1.
Proof.
  split.
  { intros doc Hdoc. vm_compute in Hdoc. injection Hdoc as <-.
    vm_compute. repeat split; discriminate. }
  repeat split; try (vm_compute; reflexivity).
  intros Hin. destruct (Hin onePageDoc) as [[_ Hle] _]; [vm_compute; reflexivity|].
  vm_compute in Hle. apply Hle. reflexivity.
Qed.

(** C8, as stated, fails on a state both versions reach: after the last page
    of the three-page document and a load of the one-page document both hold
    index 3 and page count 1; page-back then keeps 3 where [renderPage]
    checks the bounds and moves to 2 in the copy. *)
Lemma navigation_variants_differ :
  sameStart lastPageThenReloadCurrent lastPageThenReloadCopy
  /\ Current.currentPage (Current.goToPreviousPage lastPageThenReloadCurrent) = 3
  /\ Copy.pageNum (Copy.goToPreviousPage lastPageThenReloadCopy) = 2
  /\ ~ sameNavigation lastPageThenReloadCurrent lastPageThenReloadCopy.
Proof.
  split; [split; vm_compute; reflexivity|].
  split; [vm_compute; reflexivity|].
  split; [vm_compute; reflexivity|].
  intros [_ Hprev]. vm_compute in Hprev. discriminate Hprev.
Qed.

(** C8, amended.  Started with the same page index p and the same page
    count, page-forward and page-back leave the two versions on the same
    page index exactly when 0 <= p <= page count + 1; this covers every
    index within 1 and the page count. *)
Theorem navigation_variants_agree_iff
    (a : Current.AppComponent) (b : Copy.AppComponent) :
  sameStart a b ->
  (sameNavigation a b
   <-> 0 <= Current.currentPage a <= Current.totalPages a + 1).
Proof.
  intros [Hidx Hcount].
  destruct (Copy.pdfDoc b) as [doc|] eqn:Hdoc; [|discriminate Hcount].
  cbn [option_map] in Hcount. injection Hcount as Hcount.
  assert (Hnonneg : 0 <= numPages doc) by apply Nat2Z.is_nonneg.
  unfold sameNavigation.
  rewrite (proj1 (Current_goToNextPage_index a)).
  rewrite (proj1 (Current_goToPreviousPage_index a)).
  rewrite (proj1 (Copy_goToNextPage_index b doc Hdoc)).
  rewrite (proj1 (Copy_goToPreviousPage_index b)).
  rewrite <- Hidx, Hcount.
  rewrite Z.geb_leb, !Z.gtb_ltb.
  set (p := Current.currentPage a) in *.
  set (t := Current.totalPages a) in *.
  destruct (Z.ltb_spec p t); destruct (Z.ltb_spec (p + 1) 1);
    destruct (Z.ltb_spec t (p + 1)); destruct (Z.leb_spec t p);
    destruct (Z.ltb_spec 1 p); destruct (Z.ltb_spec (p - 1) 1);
    destruct (Z.ltb_spec t (p - 1)); destruct (Z.leb_spec p 1);
    cbn [andb orb negb]; lia.
Qed.

(** Page 2 of the three-page document, in both versions. *)
Lemma navigation_variants_agree_iff_witness :
  sameStart middleCurrent middleCopy
  /\ (sameNavigation middleCurrent middleCopy
      <-> 0 <= Current.currentPage middleCurrent
            <= Current.totalPages middleCurrent + 1).
Proof.
  assert (Hstart : sameStart middleCurrent middleCopy)
    by (split; vm_compute; reflexivity).
  split; [exact Hstart|].
  exact (navigation_variants_agree_iff middleCurrent middleCopy Hstart).
Defined.

(** ** The crop rectangle between gestures *)

Lemma Current_loadPdf_crop (files : list File) (s : Current.AppComponent) :
  Current.isSelecting (Current.loadPdf files s) = Current.isSelecting s
  /\ Current.cropRect (Current.loadPdf files s) = Current.cropRect s.
Proof.
  destruct files as [|[doc|] rest]; try (split; reflexivity).
  unfold Current.loadPdf. cbv zeta.
  destruct (Current_renderPage_index
              (Current.currentPage
                 (Current.set_totalPages (numPages doc)
                    (Current.set_pdfDoc (Some doc) s)))
              (Current.set_totalPages (numPages doc)
                 (Current.set_pdfDoc (Some doc) s))) as (_ & _ & _ & Hsel & Hrect).
  rewrite Hsel, Hrect. destruct s. split; reflexivity.
Qed.

Lemma Copy_loadPdf_crop (files : list File) (s : Copy.AppComponent) :
  Copy.isSelecting (Copy.loadPdf files s) = Copy.isSelecting s
  /\ Copy.cropRect (Copy.loadPdf files s) = Copy.cropRect s.
Proof.
  destruct files as [|[doc|] rest]; try (split; reflexivity).
  unfold Copy.loadPdf. cbv zeta.
  destruct (Copy_renderPage_index
              (Copy.pageNum (Copy.set_pdfDoc (Some doc) s))
              (Copy.set_pdfDoc (Some doc) s)) as (_ & _ & Hsel & Hrect).
  rewrite Hsel, Hrect. destruct s. split; reflexivity.
Qed.

Lemma Current_navigation_crop (s : Current.AppComponent) :
  (Current.isSelecting (Current.goToNextPage s) = Current.isSelecting s
   /\ Current.cropRect (Current.goToNextPage s) = Current.cropRect s)
  /\ (Current.isSelecting (Current.goToPreviousPage s) = Current.isSelecting s
      /\ Current.cropRect (Current.goToPreviousPage s) = Current.cropRect s).
Proof.
  unfold Current.goToNextPage, Current.goToPreviousPage. split.
  - destruct (_ <? _); [|split; reflexivity].
    destruct (Current_renderPage_index (Current.currentPage s + 1) s)
      as (_ & _ & _ & Hsel & Hrect). split; assumption.
  - destruct (_ >? _); [|split; reflexivity].
    destruct (Current_renderPage_index (Current.currentPage s - 1) s)
      as (_ & _ & _ & Hsel & Hrect). split; assumption.
Qed.

Lemma Copy_navigation_crop (s : Copy.AppComponent) :
  (Copy.isSelecting (Copy.goToNextPage s) = Copy.isSelecting s
   /\ Copy.cropRect (Copy.goToNextPage s) = Copy.cropRect s)
  /\ (Copy.isSelecting (Copy.goToPreviousPage s) = Copy.isSelecting s
      /\ Copy.cropRect (Copy.goToPreviousPage s) = Copy.cropRect s).
Proof.
  unfold Copy.goToNextPage, Copy.goToPreviousPage. split.
  - destruct (Copy.pdfDoc s) as [doc|]; [|split; reflexivity].
    destruct (_ >=? _); [split; reflexivity|]. cbv zeta.
    destruct (Copy_renderPage_index
                (Copy.pageNum (Copy.set_pageNum (Copy.pageNum s + 1) s))
                (Copy.set_pageNum (Copy.pageNum s + 1) s)) as (_ & _ & Hsel & Hrect).
    rewrite Hsel, Hrect. destruct s. split; reflexivity.
  - destruct (_ <=? _); [split; reflexivity|]. cbv zeta.
    destruct (Copy_renderPage_index
                (Copy.pageNum (Copy.set_pageNum (Copy.pageNum s - 1) s))
                (Copy.set_pageNum (Copy.pageNum s - 1) s)) as (_ & _ & Hsel & Hrect).
    rewrite Hsel, Hrect. destruct s. split; reflexivity.
Qed.

Lemma Current_endCrop_cropRect (s : Current.AppComponent) :
  Current.cropRect (Current.endCrop s) = Current.cropRect s.
Proof.
  unfold Current.endCrop.
  destruct ((Current.cropWidth s =? 0) || (Current.cropHeight s =? 0)).
  - destruct s. reflexivity.
  - rewrite (proj2 (Current_cropImage_isSelecting _)). destruct s. reflexivity.
Qed.

Lemma Copy_endCrop_cropRect (s : Copy.AppComponent) :
  Copy.cropRect (Copy.endCrop s) = Copy.cropRect s.
Proof.
  unfold Copy.endCrop.
  destruct ((Copy.cropWidth s =? 0) || (Copy.cropHeight s =? 0)).
  - destruct s. reflexivity.
  - rewrite (proj2 (Copy_cropImage_isSelecting _)). destruct s. reflexivity.
Qed.

(** While the flag is off, no handler but [startCrop] turns it on or touches
    the crop rectangle. *)
Lemma Current_crop_frozen {R : Rasterizer} (evs : list Current.Event) :
  forall s : Current.AppComponent,
  Current.isSelecting s = false ->
  forallb (fun ev => negb (Current.isStartCrop ev)) evs = true ->
  Current.isSelecting (Current.run evs s) = false
  /\ Current.cropRect (Current.run evs s) = Current.cropRect s.
Proof.
  induction evs as [|ev evs IH]; intros s Hoff Hnone; [split; [assumption|reflexivity]|].
  cbn [forallb] in Hnone. apply andb_true_iff in Hnone. destruct Hnone as [Hev Hrest].
  assert (Hstep : Current.isSelecting (Current.handle s ev) = false
                  /\ Current.cropRect (Current.handle s ev) = Current.cropRect s).
  { destruct ev as [files| | |e|e|]; cbn [Current.handle].
    - destruct (Current_loadPdf_crop files s) as [Hsel Hrect]. split; congruence.
    - destruct (Current_navigation_crop s) as [_ [Hsel Hrect]]. split; congruence.
    - destruct (Current_navigation_crop s) as [[Hsel Hrect] _]. split; congruence.
    - discriminate Hev.
    - unfold Current.onMouseMove. rewrite Hoff. split; [assumption|reflexivity].
    - split; [apply Current_endCrop_isSelecting | apply Current_endCrop_cropRect]. }
  destruct Hstep as [Hoff' Hrect'].
  destruct (IH _ Hoff' Hrest) as [Hsel Hrect].
  unfold Current.run in *. cbn [fold_left]. split; congruence.
Qed.

Lemma Copy_crop_frozen {R : Rasterizer} (evs : list Copy.Event) :
  forall s : Copy.AppComponent,
  Copy.isSelecting s = false ->
  forallb (fun ev => negb (Copy.isStartCrop ev)) evs = true ->
  Copy.isSelecting (Copy.run evs s) = false
  /\ Copy.cropRect (Copy.run evs s) = Copy.cropRect s.
Proof.
  induction evs as [|ev evs IH]; intros s Hoff Hnone; [split; [assumption|reflexivity]|].
  cbn [forallb] in Hnone. apply andb_true_iff in Hnone. destruct Hnone as [Hev Hrest].
  assert (Hstep : Copy.isSelecting (Copy.handle s ev) = false
                  /\ Copy.cropRect (Copy.handle s ev) = Copy.cropRect s).
  { destruct ev as [files| | |e|e|]; cbn [Copy.handle].
    - destruct (Copy_loadPdf_crop files s) as [Hsel Hrect]. split; congruence.
    - destruct (Copy_navigation_crop s) as [_ [Hsel Hrect]]. split; congruence.
    - destruct (Copy_navigation_crop s) as [[Hsel Hrect] _]. split; congruence.
    - discriminate Hev.
    - unfold Copy.onMouseMove. rewrite Hoff. split; [assumption|reflexivity].
    - split; [apply Copy_endCrop_isSelecting | apply Copy_endCrop_cropRect]. }
  destruct Hstep as [Hoff' Hrect'].
  destruct (IH _ Hoff' Hrest) as [Hsel Hrect].
  unfold Copy.run in *. cbn [fold_left]. split; congruence.
Qed.

(** * Further properties *)

(** ** Canvases *)

Lemma getPixel_outside c x y :
  inBounds c x y = false -> getPixel c x y = transparentBlack.
Proof.
  intros Hout. unfold getPixel. rewrite Hout. reflexivity.
Qed.

Lemma inBounds_bounds c x y :
  inBounds c x y = true -> 0 <= x < width c /\ 0 <= y < height c.
Proof.
  unfold inBounds. rewrite !andb_true_iff, !Z.leb_le, !Z.ltb_lt. lia.
Qed.

Lemma getPixel_raster_total w h f x y :
  getPixel (mkCanvas w h (raster w h f)) x y
  = if inBounds (mkCanvas w h (raster w h f)) x y then f x y else transparentBlack.
Proof.
  destruct (inBounds (mkCanvas w h (raster w h f)) x y) eqn:Hin.
  - apply inBounds_bounds in Hin. cbn [width height] in Hin.
    apply getPixel_raster; lia.
  - now apply getPixel_outside.
Qed.

Lemma drawImage_pixel src dst x y :
  getPixel (drawImage src dst) x y
  = if inBounds dst x y
    then (if inBounds src x y then getPixel src x y else getPixel dst x y)
    else transparentBlack.
Proof.
  unfold drawImage. rewrite getPixel_raster_total. reflexivity.
Qed.

Lemma blankCanvas_pixel w h x y : getPixel (blankCanvas w h) x y = transparentBlack.
Proof.
  unfold blankCanvas. rewrite getPixel_raster_total.
  destruct (inBounds _ x y); reflexivity.
Qed.

(** Drawing on a cleared canvas of the source's size copies the source. *)
Lemma drawImage_samePixels src :
  samePixels (drawImage src (blankCanvas (width src) (height src))) src.
Proof.
  split; [reflexivity|]. split; [reflexivity|]. intros x y.
  rewrite drawImage_pixel.
  change (inBounds (blankCanvas (width src) (height src)) x y) with (inBounds src x y).
  destruct (inBounds src x y) eqn:Hin; [reflexivity|].
  symmetry. now apply getPixel_outside.
Qed.

(** ** Rendering *)

(** X1.  [displayCanvas] gives the displayed canvas the size of the
    offscreen canvas and every pixel of it, and changes nothing else.  Both
    versions. *)
Theorem displayCanvas_shows_offscreen
    (a : Current.AppComponent) (b : Copy.AppComponent) :
  (samePixels (Current.pdfCanvas (Current.displayCanvas a)) (Current.canvas a)
   /\ Current.displayCanvas a
      = Current.set_pdfCanvas (Current.pdfCanvas (Current.displayCanvas a)) a)
  /\ (samePixels (Copy.pdfCanvas (Copy.displayCanvas b)) (Copy.canvas b)
      /\ Copy.displayCanvas b
         = Copy.set_pdfCanvas (Copy.pdfCanvas (Copy.displayCanvas b)) b).
Proof.
  split; split.
  - destruct a. apply drawImage_samePixels.
  - destruct a. reflexivity.
  - destruct b. apply drawImage_samePixels.
  - destruct b. reflexivity.
Qed.

(** X2.  [redrawCanvas] keeps the size of the displayed canvas and sets
    each of its pixels to the pixel of the offscreen canvas at that place
    (transparent black where the offscreen canvas does not reach): whatever
    was stroked on the displayed canvas is gone.  Both versions. *)
Theorem redrawCanvas_restores_page
    (a : Current.AppComponent) (b : Copy.AppComponent) :
  (width (Current.pdfCanvas (Current.redrawCanvas a)) = width (Current.pdfCanvas a)
   /\ height (Current.pdfCanvas (Current.redrawCanvas a)) = height (Current.pdfCanvas a)
   /\ forall x y,
        getPixel (Current.pdfCanvas (Current.redrawCanvas a)) x y
        = if inBounds (Current.pdfCanvas a) x y
          then getPixel (Current.canvas a) x y else transparentBlack)
  /\ (width (Copy.pdfCanvas (Copy.redrawCanvas b)) = width (Copy.pdfCanvas b)
      /\ height (Copy.pdfCanvas (Copy.redrawCanvas b)) = height (Copy.pdfCanvas b)
      /\ forall x y,
           getPixel (Copy.pdfCanvas (Copy.redrawCanvas b)) x y
           = if inBounds (Copy.pdfCanvas b) x y
             then getPixel (Copy.canvas b) x y else transparentBlack).
Proof.
  split.
  - destruct a as [pc doc cur tot cv sx sy cw chh sel bd co].
    split; [reflexivity|]. split; [reflexivity|]. intros x y.
    change (Current.pdfCanvas (Current.redrawCanvas
              (Current.mkApp pc doc cur tot cv sx sy cw chh sel bd co)))
      with (drawImage cv (clearAll pc)).
    cbn [Current.pdfCanvas Current.canvas].
    rewrite drawImage_pixel.
    change (inBounds (clearAll pc) x y) with (inBounds pc x y).
    destruct (inBounds pc x y); [|reflexivity].
    destruct (inBounds cv x y) eqn:Hcv; [reflexivity|].
    unfold clearAll. rewrite blankCanvas_pixel.
    symmetry. now apply getPixel_outside.
  - destruct b as [pc doc num pg cv sx sy cw chh sel bd co].
    split; [reflexivity|]. split; [reflexivity|]. intros x y.
    change (Copy.pdfCanvas (Copy.redrawCanvas
              (Copy.mkApp pc doc num pg cv sx sy cw chh sel bd co)))
      with (drawImage cv (clearAll pc)).
    cbn [Copy.pdfCanvas Copy.canvas].
    rewrite drawImage_pixel.
    change (inBounds (clearAll pc) x y) with (inBounds pc x y).
    destruct (inBounds pc x y); [|reflexivity].
    destruct (inBounds cv x y) eqn:Hcv; [reflexivity|].
    unfold clearAll. rewrite blankCanvas_pixel.
    symmetry. now apply getPixel_outside.
Qed.

Lemma getPage_some (doc : PdfDocument) (n : Z) :
  1 <= n <= numPages doc ->
  exists page, getPage doc n = Some page
               /\ nth_error (pages doc) (Z.to_nat (n - 1)) = Some page.
Proof.
  intros Hn. unfold getPage.
  replace ((1 <=? n) && (n <=? numPages doc)) with true
    by (symmetry; rewrite andb_true_iff, !Z.leb_le; exact Hn).
  destruct (nth_error (pages doc) (Z.to_nat (n - 1))) as [page|] eqn:Hnth.
  - exists page. split; reflexivity.
  - apply nth_error_None in Hnth. unfold numPages in Hn. lia.
Qed.

Lemma getPage_none (doc : PdfDocument) (n : Z) :
  n < 1 \/ numPages doc < n -> getPage doc n = None.
Proof.
  intros Hn. unfold getPage.
  replace ((1 <=? n) && (n <=? numPages doc)) with false; [reflexivity|].
  symmetry. apply andb_false_iff. rewrite !Z.leb_gt. lia.
Qed.

Lemma Current_renderPage_ok (s : Current.AppComponent) (doc : PdfDocument)
    (n : Z) (page : PdfPage) :
  Current.pdfDoc s = Some doc -> 1 <= n <= Current.totalPages s ->
  getPage doc n = Some page ->
  Current.renderPage n s
  = Current.displayCanvas (Current.set_canvas page (Current.set_currentPage n s)).
Proof.
  intros Hdoc Hn Hpage. destruct s as [pc d cur tot cv sx sy cw chh sel bd co].
  cbn [Current.pdfDoc Current.totalPages] in Hdoc, Hn. subst d.
  nav_unfold.
  replace ((n <? 1) || (n >? tot)) with false
    by (symmetry; apply orb_false_iff; rewrite Z.gtb_ltb, !Z.ltb_ge; lia).
  rewrite Hpage. reflexivity.
Qed.

Lemma Copy_renderPage_ok (s : Copy.AppComponent) (doc : PdfDocument)
    (n : Z) (page : PdfPage) :
  Copy.pdfDoc s = Some doc -> getPage doc n = Some page ->
  Copy.renderPage n s
  = Copy.displayCanvas (Copy.set_canvas page (Copy.set_page (Some page) s)).
Proof.
  intros Hdoc Hpage. destruct s as [pc d num pg cv sx sy cw chh sel bd co].
  cbn [Copy.pdfDoc] in Hdoc. subst d.
  nav_unfold. rewrite Hpage. reflexivity.
Qed.

(** X3.  [renderPage] with a page number within the document (and, in the
    current version, within [totalPages]) makes that page the offscreen
    canvas and shows its pixels on the displayed canvas.  The current version
    also makes the number the page index; the copy records the page in
    [page] and leaves [pageNum] alone.  Nothing else changes. *)
Theorem renderPage_shows_page
    (a : Current.AppComponent) (b : Copy.AppComponent) (doc : PdfDocument) (n : Z) :
  Current.pdfDoc a = Some doc -> Copy.pdfDoc b = Some doc ->
  1 <= n <= Current.totalPages a -> n <= numPages doc ->
  exists page,
    nth_error (pages doc) (Z.to_nat (n - 1)) = Some page
    /\ (Current.currentPage (Current.renderPage n a) = n
        /\ Current.canvas (Current.renderPage n a) = page
        /\ samePixels (Current.pdfCanvas (Current.renderPage n a)) page
        /\ Current.renderPage n a
           = Current.set_pdfCanvas (Current.pdfCanvas (Current.renderPage n a))
               (Current.set_canvas page (Current.set_currentPage n a)))
    /\ (Copy.pageNum (Copy.renderPage n b) = Copy.pageNum b
        /\ Copy.page (Copy.renderPage n b) = Some page
        /\ Copy.canvas (Copy.renderPage n b) = page
        /\ samePixels (Copy.pdfCanvas (Copy.renderPage n b)) page
        /\ Copy.renderPage n b
           = Copy.set_pdfCanvas (Copy.pdfCanvas (Copy.renderPage n b))
               (Copy.set_canvas page (Copy.set_page (Some page) b))).
Proof.
  intros Hda Hdb Hn Hdoc.
  destruct (getPage_some doc n ltac:(lia)) as [page [Hpage Hnth]].
  exists page. split; [exact Hnth|].
  rewrite (Current_renderPage_ok a doc n page Hda Hn Hpage).
  rewrite (Copy_renderPage_ok b doc n page Hdb Hpage).
  split.
  - destruct a. repeat split; try reflexivity; apply drawImage_samePixels.
  - destruct b. repeat split; try reflexivity; apply drawImage_samePixels.
Qed.

(** Page 2 of the three-page document, from its first page. *)
Lemma renderPage_shows_page_witness :
  Current.pdfDoc (Current.loadPdf [Some threePageDoc] Current.initial) = Some threePageDoc
  /\ 1 <= 2 <= Current.totalPages (Current.loadPdf [Some threePageDoc] Current.initial)
  /\ Current.canvas
       (Current.renderPage 2 (Current.loadPdf [Some threePageDoc] Current.initial))
     = solidPage 8 6 opaqueWhite.
Proof.
  assert (Hda : Current.pdfDoc (Current.loadPdf [Some threePageDoc] Current.initial)
                = Some threePageDoc) by (vm_compute; reflexivity).
  assert (Hdb : Copy.pdfDoc (Copy.loadPdf [Some threePageDoc] Copy.initial)
                = Some threePageDoc) by (vm_compute; reflexivity).
  assert (Hn : 1 <= 2 <= Current.totalPages
                            (Current.loadPdf [Some threePageDoc] Current.initial))
    by (vm_compute; split; discriminate).
  assert (Hdoc : 2 <= numPages threePageDoc) by (vm_compute; discriminate).
  split; [exact Hda|]. split; [exact Hn|].
  destruct (renderPage_shows_page _ _ threePageDoc 2 Hda Hdb Hn Hdoc)
    as [page [Hnth [[_ [Hcv _]] _]]].
  rewrite Hcv. vm_compute in Hnth. injection Hnth as <-. vm_compute. reflexivity.
Defined.

(** X4.  [renderPage] with a page number outside the document changes
    nothing: the current version returns at its bounds check, the copy when
    [getPage] rejects the number. *)
Theorem renderPage_out_of_range_noop
    (a : Current.AppComponent) (b : Copy.AppComponent) (doc : PdfDocument) (n : Z) :
  n < 1 \/ Current.totalPages a < n ->
  Copy.pdfDoc b = Some doc -> n < 1 \/ numPages doc < n ->
  Current.renderPage n a = a /\ Copy.renderPage n b = b.
Proof.
  intros Ha Hdb Hb. split.
  - unfold Current.renderPage.
    replace ((n <? 1) || (n >? Current.totalPages a)) with true; [reflexivity|].
    symmetry. apply orb_true_iff. rewrite Z.gtb_ltb, !Z.ltb_lt. exact Ha.
  - unfold Copy.renderPage. rewrite Hdb, (getPage_none doc n Hb). reflexivity.
Qed.

(** Page 0 and page 2 of the one-page document. *)
Lemma renderPage_out_of_range_noop_witness :
  (2 < 1 \/ Current.totalPages loadedCurrent < 2)
  /\ Copy.pdfDoc loadedCopy = Some onePageDoc
  /\ Current.renderPage 2 loadedCurrent = loadedCurrent
  /\ Copy.renderPage 2 loadedCopy = loadedCopy.
Proof.
  assert (Ha : 2 < 1 \/ Current.totalPages loadedCurrent < 2)
    by (right; vm_compute; reflexivity).
  assert (Hdb : Copy.pdfDoc loadedCopy = Some onePageDoc) by (vm_compute; reflexivity).
  assert (Hb : 2 < 1 \/ numPages onePageDoc < 2) by (right; vm_compute; reflexivity).
  split; [exact Ha|]. split; [exact Hdb|].
  exact (renderPage_out_of_range_noop loadedCurrent loadedCopy onePageDoc 2 Ha Hdb Hb).
Defined.

(** ** Loading *)

(** X5.  When the document loaded has a page for the index held, [loadPdf]
    keeps the index and renders that page of the new document: the document
    (and, in the current version, the page count) is the new one, the
    offscreen canvas is the page and the displayed canvas shows its pixels.
    On a first load the index is 1, so the first page is shown.  Further
    files of the input are ignored. *)
Theorem loadPdf_shows_page_of_index
    (a : Current.AppComponent) (b : Copy.AppComponent) (doc : PdfDocument)
    (rest : list File) :
  1 <= Current.currentPage a <= numPages doc ->
  1 <= Copy.pageNum b <= numPages doc ->
  exists pa pb,
    nth_error (pages doc) (Z.to_nat (Current.currentPage a - 1)) = Some pa
    /\ nth_error (pages doc) (Z.to_nat (Copy.pageNum b - 1)) = Some pb
    /\ (Current.pdfDoc (Current.loadPdf (Some doc :: rest) a) = Some doc
        /\ Current.totalPages (Current.loadPdf (Some doc :: rest) a) = numPages doc
        /\ Current.currentPage (Current.loadPdf (Some doc :: rest) a)
           = Current.currentPage a
        /\ Current.canvas (Current.loadPdf (Some doc :: rest) a) = pa
        /\ samePixels (Current.pdfCanvas (Current.loadPdf (Some doc :: rest) a)) pa)
    /\ (Copy.pdfDoc (Copy.loadPdf (Some doc :: rest) b) = Some doc
        /\ Copy.pageNum (Copy.loadPdf (Some doc :: rest) b) = Copy.pageNum b
        /\ Copy.page (Copy.loadPdf (Some doc :: rest) b) = Some pb
        /\ Copy.canvas (Copy.loadPdf (Some doc :: rest) b) = pb
        /\ samePixels (Copy.pdfCanvas (Copy.loadPdf (Some doc :: rest) b)) pb).
Proof.
  intros Ha Hb.
  destruct (getPage_some doc _ Ha) as [pa [Hpa Hna]].
  destruct (getPage_some doc _ Hb) as [pb [Hpb Hnb]].
  exists pa, pb. split; [exact Hna|]. split; [exact Hnb|]. split.
  - unfold Current.loadPdf. cbv zeta.
    destruct a as [pc d cur tot cv sx sy cw chh sel bd co].
    cbn [Current.currentPage] in Ha, Hpa.
    rewrite (Current_renderPage_ok _ doc cur pa);
      [|reflexivity|exact Ha|exact Hpa].
    repeat split; try reflexivity; apply drawImage_samePixels.
  - unfold Copy.loadPdf. cbv zeta.
    destruct b as [pc d num pg cv sx sy cw chh sel bd co].
    cbn [Copy.pageNum] in Hb, Hpb.
    rewrite (Copy_renderPage_ok _ doc num pb); [|reflexivity|exact Hpb].
    repeat split; try reflexivity; apply drawImage_samePixels.
Qed.

(** The first load of the three-page document shows its first page. *)
Lemma loadPdf_shows_page_of_index_witness :
  1 <= Current.currentPage Current.initial <= numPages threePageDoc
  /\ 1 <= Copy.pageNum Copy.initial <= numPages threePageDoc
  /\ Current.canvas (Current.loadPdf [Some threePageDoc; None] Current.initial)
     = gradientPage 8 6
  /\ Copy.canvas (Copy.loadPdf [Some threePageDoc; None] Copy.initial)
     = gradientPage 8 6.
Proof.
  assert (Ha : 1 <= Current.currentPage Current.initial <= numPages threePageDoc)
    by (vm_compute; split; discriminate).
  assert (Hb : 1 <= Copy.pageNum Copy.initial <= numPages threePageDoc)
    by (vm_compute; split; discriminate).
  split; [exact Ha|]. split; [exact Hb|].
  destruct (loadPdf_shows_page_of_index Current.initial Copy.initial threePageDoc
              [None] Ha Hb)
    as [pa [pb [Hna [Hnb [[_ [_ [_ [Hca _]]]] [_ [_ [_ [Hcb _]]]]]]]]].
  rewrite Hca, Hcb.
  vm_compute in Hna. vm_compute in Hnb.
  injection Hna as <-. injection Hnb as <-.
  split; vm_compute; reflexivity.
Defined.

(** X6.  When the document loaded has fewer pages than the index held,
    [loadPdf] only replaces the document (and, in the current version, the
    page count): the index, the offscreen canvas and the displayed canvas
    stay, so the page of the old document remains on display. *)
Theorem loadPdf_shorter_document_keeps_old_page
    (a : Current.AppComponent) (b : Copy.AppComponent) (doc : PdfDocument)
    (rest : list File) :
  numPages doc < Current.currentPage a ->
  numPages doc < Copy.pageNum b ->
  (Current.loadPdf (Some doc :: rest) a
   = Current.set_totalPages (numPages doc) (Current.set_pdfDoc (Some doc) a)
   /\ Current.canvas (Current.loadPdf (Some doc :: rest) a) = Current.canvas a
   /\ Current.pdfCanvas (Current.loadPdf (Some doc :: rest) a) = Current.pdfCanvas a)
  /\ (Copy.loadPdf (Some doc :: rest) b = Copy.set_pdfDoc (Some doc) b
      /\ Copy.canvas (Copy.loadPdf (Some doc :: rest) b) = Copy.canvas b
      /\ Copy.pdfCanvas (Copy.loadPdf (Some doc :: rest) b) = Copy.pdfCanvas b).
Proof.
  intros Ha Hb.
  assert (Hload : Current.loadPdf (Some doc :: rest) a
                  = Current.set_totalPages (numPages doc)
                      (Current.set_pdfDoc (Some doc) a)).
  { destruct a as [pc d cur tot cv sx sy cw chh sel bd co].
    cbn [Current.currentPage] in Ha. nav_unfold.
    replace ((cur <? 1) || (cur >? numPages doc)) with true; [reflexivity|].
    symmetry. apply orb_true_iff. right. rewrite Z.gtb_ltb, Z.ltb_lt. exact Ha. }
  assert (Hload' : Copy.loadPdf (Some doc :: rest) b = Copy.set_pdfDoc (Some doc) b).
  { destruct b as [pc d num pg cv sx sy cw chh sel bd co].
    cbn [Copy.pageNum] in Hb. nav_unfold.
    rewrite (getPage_none doc num) by (right; exact Hb). reflexivity. }
  rewrite Hload, Hload'. split.
  - destruct a. repeat split; reflexivity.
  - destruct b. repeat split; reflexivity.
Qed.

(** Page 2 of the three-page document, then the one-page document. *)
Lemma loadPdf_shorter_document_keeps_old_page_witness :
  numPages onePageDoc < Current.currentPage middleCurrent
  /\ numPages onePageDoc < Copy.pageNum middleCopy
  /\ Current.pdfCanvas (Current.loadPdf [Some onePageDoc] middleCurrent)
     = Current.pdfCanvas middleCurrent
  /\ Copy.pdfCanvas (Copy.loadPdf [Some onePageDoc] middleCopy)
     = Copy.pdfCanvas middleCopy.
Proof.
  assert (Ha : numPages onePageDoc < Current.currentPage middleCurrent)
    by (vm_compute; reflexivity).
  assert (Hb : numPages onePageDoc < Copy.pageNum middleCopy)
    by (vm_compute; reflexivity).
  split; [exact Ha|]. split; [exact Hb|].
  destruct (loadPdf_shorter_document_keeps_old_page middleCurrent middleCopy
              onePageDoc [] Ha Hb) as [[_ [_ Hpa]] [_ [_ Hpb]]].
  split; [exact Hpa | exact Hpb].
Defined.

(** ** What each group of handlers leaves alone *)

Lemma Current_page_handlers_cropState (s : Current.AppComponent) (files : list File) :
  cropState (Current.loadPdf files s) = cropState s
  /\ cropState (Current.goToNextPage s) = cropState s
  /\ cropState (Current.goToPreviousPage s) = cropState s.
Proof.
  destruct s as [pc d cur tot cv sx sy cw chh sel bd co].
  unfold cropState. repeat split.
  - destruct files as [|[doc|] rest]; try reflexivity. nav_unfold.
    destruct ((cur <? 1) || (cur >? numPages doc)); [reflexivity|].
    destruct (getPage doc cur); reflexivity.
  - nav_unfold. destruct (cur <? tot); [|reflexivity].
    destruct ((cur + 1 <? 1) || (cur + 1 >? tot)); [reflexivity|].
    destruct d as [doc|]; [|reflexivity].
    destruct (getPage doc (cur + 1)); reflexivity.
  - nav_unfold. destruct (cur >? 1); [|reflexivity].
    destruct ((cur - 1 <? 1) || (cur - 1 >? tot)); [reflexivity|].
    destruct d as [doc|]; [|reflexivity].
    destruct (getPage doc (cur - 1)); reflexivity.
Qed.

Lemma Copy_page_handlers_cropState (s : Copy.AppComponent) (files : list File) :
  cropStateCopy (Copy.loadPdf files s) = cropStateCopy s
  /\ cropStateCopy (Copy.goToNextPage s) = cropStateCopy s
  /\ cropStateCopy (Copy.goToPreviousPage s) = cropStateCopy s.
Proof.
  destruct s as [pc d num pg cv sx sy cw chh sel bd co].
  unfold cropStateCopy. repeat split.
  - destruct files as [|[doc|] rest]; try reflexivity. nav_unfold.
    destruct (getPage doc num); reflexivity.
  - nav_unfold. destruct d as [doc|]; [|reflexivity].
    destruct (num >=? numPages doc); [reflexivity|].
    destruct (getPage doc (num + 1)); reflexivity.
  - nav_unfold. destruct (num <=? 1); [reflexivity|].
    destruct d as [doc|]; [|reflexivity].
    destruct (getPage doc (num - 1)); reflexivity.
Qed.

Lemma Current_crop_handlers_pageState {R : Rasterizer} (s : Current.AppComponent)
    (e : MouseEvent) :
  pageState (Current.startCrop e s) = pageState s
  /\ pageState (Current.onMouseMove e s) = pageState s
  /\ pageState (Current.endCrop s) = pageState s.
Proof.
  destruct s as [pc d cur tot cv sx sy cw chh sel bd co].
  unfold pageState. repeat split.
  - crop_unfold. destruct sel; reflexivity.
  - crop_unfold. destruct ((cw =? 0) || (chh =? 0)); [reflexivity|].
    unfold Current.cropImage. crop_unfold.
    destruct ((cw <=? 0) || (chh <=? 0)); [reflexivity|].
    destruct (getImageData pc sx sy cw chh); reflexivity.
Qed.

Lemma Copy_crop_handlers_pageState {R : Rasterizer} (s : Copy.AppComponent)
    (e : MouseEvent) :
  pageStateCopy (Copy.startCrop e s) = pageStateCopy s
  /\ pageStateCopy (Copy.onMouseMove e s) = pageStateCopy s
  /\ pageStateCopy (Copy.endCrop s) = pageStateCopy s.
Proof.
  destruct s as [pc d num pg cv sx sy cw chh sel bd co].
  unfold pageStateCopy. repeat split.
  - crop_unfold. destruct sel; reflexivity.
  - crop_unfold. destruct ((cw =? 0) || (chh =? 0)); [reflexivity|].
    unfold Copy.cropImage. crop_unfold.
    destruct ((cw <=? 0) || (chh <=? 0)); [reflexivity|].
    destruct (getImageData pc sx sy cw chh); reflexivity.
Qed.

(** X7.  The crop handlers ([startCrop], [onMouseMove], [endCrop]), in any
    number and order, never change the document, the page index, the page
    count (in the copy: the page handle) or the offscreen canvas.  Both
    versions. *)
Theorem crop_events_keep_page_state {R : Rasterizer} (evs : list Current.Event) :
  forall (a : Current.AppComponent) (b : Copy.AppComponent),
  forallb isCropEvent evs = true ->
  pageState (Current.run evs a) = pageState a
  /\ pageStateCopy (Copy.run (map toCopy evs) b) = pageStateCopy b.
Proof.
  induction evs as [|ev evs IH]; intros a b Hcrop; [split; reflexivity|].
  cbn [forallb] in Hcrop. apply andb_true_iff in Hcrop. destruct Hcrop as [Hev Hrest].
  unfold Current.run, Copy.run in *. cbn [map fold_left].
  destruct (IH (Current.handle a ev) (Copy.handle b (toCopy ev)) Hrest) as [Ha Hb].
  rewrite Ha, Hb.
  destruct ev as [files| | |e|e|]; try discriminate Hev;
    cbn [toCopy Current.handle Copy.handle].
  - split; [apply (Current_crop_handlers_pageState a e)
           | apply (Copy_crop_handlers_pageState b e)].
  - split; [apply (Current_crop_handlers_pageState a e)
           | apply (Copy_crop_handlers_pageState b e)].
  - split; [apply (Current_crop_handlers_pageState a (mkMouse 0 0))
           | apply (Copy_crop_handlers_pageState b (mkMouse 0 0))].
Qed.

(** A drag with an export and a stray mouse-move on page 2. *)
Lemma crop_events_keep_page_state_witness :
  forallb isCropEvent sampleGesture = true
  /\ pageState (@Current.run squareStroke sampleGesture middleCurrent)
     = pageState middleCurrent
  /\ pageStateCopy (@Copy.run squareStroke (map toCopy sampleGesture) middleCopy)
     = pageStateCopy middleCopy.
Proof.
  split; [reflexivity|].
  exact (@crop_events_keep_page_state squareStroke sampleGesture
           middleCurrent middleCopy eq_refl).
Defined.

(** X8.  The page handlers ([loadPdf], [goToNextPage], [goToPreviousPage]),
    in any number and order, never change the crop rectangle, the selecting
    flag, the nodes appended to the page or the console.  Both versions. *)
Theorem page_events_keep_crop_state {R : Rasterizer} (evs : list Current.Event) :
  forall (a : Current.AppComponent) (b : Copy.AppComponent),
  forallb (fun ev => negb (isCropEvent ev)) evs = true ->
  cropState (Current.run evs a) = cropState a
  /\ cropStateCopy (Copy.run (map toCopy evs) b) = cropStateCopy b.
Proof.
  induction evs as [|ev evs IH]; intros a b Hpage; [split; reflexivity|].
  cbn [forallb] in Hpage. apply andb_true_iff in Hpage. destruct Hpage as [Hev Hrest].
  unfold Current.run, Copy.run in *. cbn [map fold_left].
  destruct (IH (Current.handle a ev) (Copy.handle b (toCopy ev)) Hrest) as [Ha Hb].
  rewrite Ha, Hb.
  destruct ev as [files| | |e|e|]; try discriminate Hev;
    cbn [toCopy Current.handle Copy.handle].
  - split; [apply (Current_page_handlers_cropState a files)
           | apply (Copy_page_handlers_cropState b files)].
  - split; [apply (Current_page_handlers_cropState a [])
           | apply (Copy_page_handlers_cropState b [])].
  - split; [apply (Current_page_handlers_cropState a [])
           | apply (Copy_page_handlers_cropState b [])].
Qed.

(** Paging and a reload while the mouse is down at (5,4). *)
Lemma page_events_keep_crop_state_witness :
  forallb (fun ev => negb (isCropEvent ev)) samplePaging = true
  /\ cropState (@Current.run squareStroke samplePaging pressedCurrent)
     = cropState pressedCurrent
  /\ cropStateCopy (@Copy.run squareStroke (map toCopy samplePaging) pressedCopy)
     = cropStateCopy pressedCopy.
Proof.
  split; [reflexivity|].
  exact (@page_events_keep_crop_state squareStroke samplePaging
           pressedCurrent pressedCopy eq_refl).
Defined.

(** ** Invariants of the page state *)

Lemma pageCounted_ext (s s' : Current.AppComponent) :
  pageState s' = pageState s -> pageCounted s -> pageCounted s'.
Proof.
  unfold pageState, pageCounted. intros Heq. injection Heq as -> -> -> _. tauto.
Qed.

Lemma pageCountedCopy_ext (s s' : Copy.AppComponent) :
  pageStateCopy s' = pageStateCopy s -> pageCountedCopy s -> pageCountedCopy s'.
Proof.
  unfold pageStateCopy, pageCountedCopy. intros Heq. injection Heq as -> -> _ _. tauto.
Qed.

Lemma pageShown_ext (s s' : Current.AppComponent) :
  pageState s' = pageState s -> pageShown s -> pageShown s'.
Proof.
  unfold pageState, pageShown. intros Heq. injection Heq as -> -> -> ->. tauto.
Qed.

Lemma Current_handle_pageCounted {R : Rasterizer} (s : Current.AppComponent)
    (ev : Current.Event) :
  pageCounted s -> pageCounted (Current.handle s ev).
Proof.
  intros Hinv.
  destruct ev as [files| | |e|e|]; cbn [Current.handle];
    try (apply (pageCounted_ext s); [apply (Current_crop_handlers_pageState s e)
                                    | exact Hinv]);
    try (apply (pageCounted_ext s);
         [apply (Current_crop_handlers_pageState s (mkMouse 0 0)) | exact Hinv]).
  - destruct files as [|[doc|] rest]; try exact Hinv.
    unfold pageCounted, File in *.
    rewrite Current_loadPdf_index.
    destruct (Current_loadPdf_totalPages doc rest s) as [Htot Hdoc].
    rewrite Hdoc, Htot. split; [apply Hinv | reflexivity].
  - destruct Hinv as [Hone Hdoc]. unfold pageCounted.
    destruct (Current_goToPreviousPage_index s) as [Hcur Htot].
    assert (Hd : Current.pdfDoc (Current.goToPreviousPage s) = Current.pdfDoc s).
    { unfold Current.goToPreviousPage. destruct (_ >? _); [|reflexivity].
      apply Current_renderPage_index. }
    rewrite Hd, Htot, Hcur.
    destruct (Z.gtb_spec (Current.currentPage s) 1); cbn [andb].
    + destruct (Z.ltb_spec (Current.currentPage s - 1) 1); cbn [orb negb].
      * split; [lia|]. destruct (Current.pdfDoc s); [exact Hdoc|lia].
      * destruct (_ >? _); cbn [negb];
          (split; [lia|]; destruct (Current.pdfDoc s); [exact Hdoc|lia]).
    + split; [lia|exact Hdoc].
  - destruct Hinv as [Hone Hdoc]. unfold pageCounted.
    destruct (Current_goToNextPage_index s) as [Hcur Htot].
    assert (Hd : Current.pdfDoc (Current.goToNextPage s) = Current.pdfDoc s).
    { unfold Current.goToNextPage. destruct (_ <? _); [|reflexivity].
      apply Current_renderPage_index. }
    rewrite Hd, Htot, Hcur.
    destruct (Z.ltb_spec (Current.currentPage s) (Current.totalPages s)); cbn [andb].
    + destruct (_ || _); cbn [negb];
        (split; [lia|]; destruct (Current.pdfDoc s); [exact Hdoc|lia]).
    + split; [lia|exact Hdoc].
Qed.

Lemma Copy_loadPdf_pdfDoc (doc : PdfDocument) (rest : list File) (s : Copy.AppComponent) :
  Copy.pdfDoc (Copy.loadPdf (Some doc :: rest) s) = Some doc.
Proof.
  unfold Copy.loadPdf. cbv zeta.
  rewrite (proj1 (proj2 (Copy_renderPage_index _ _))). destruct s. reflexivity.
Qed.

Lemma Copy_handle_pageCounted {R : Rasterizer} (s : Copy.AppComponent)
    (ev : Copy.Event) :
  pageCountedCopy s -> pageCountedCopy (Copy.handle s ev).
Proof.
  intros Hinv.
  destruct ev as [files| | |e|e|]; cbn [Copy.handle];
    try (apply (pageCountedCopy_ext s); [apply (Copy_crop_handlers_pageState s e)
                                        | exact Hinv]);
    try (apply (pageCountedCopy_ext s);
         [apply (Copy_crop_handlers_pageState s (mkMouse 0 0)) | exact Hinv]).
  - destruct files as [|[doc|] rest]; try exact Hinv.
    unfold pageCountedCopy, File in *.
    rewrite Copy_loadPdf_index, Copy_loadPdf_pdfDoc.
    split; [apply Hinv | discriminate].
  - destruct Hinv as [Hone Hdoc]. unfold pageCountedCopy.
    destruct (Copy_goToPreviousPage_index s) as [Hnum Hd].
    rewrite Hnum, Hd.
    destruct (Z.leb_spec (Copy.pageNum s) 1); split; try lia; try exact Hdoc.
    intros Hnone. specialize (Hdoc Hnone). lia.
  - destruct Hinv as [Hone Hdoc]. unfold pageCountedCopy.
    destruct (Copy.pdfDoc s) as [doc|] eqn:Hd.
    + destruct (Copy_goToNextPage_index s doc Hd) as [Hnum Hd'].
      rewrite Hnum, Hd'. split; [|discriminate].
      destruct (_ >=? _); lia.
    + unfold Copy.goToNextPage. rewrite Hd. rewrite Hd. split; assumption.
Qed.

(** X9.  From the state the constructor sets up, or any state with the
    page index at least 1 and the page count matching the document, every
    run of handlers, reloads included, keeps the page index at least 1; and
    in the current version [totalPages] stays the page count of the document
    held (0, with index 1, while there is none).  Both versions. *)
Theorem page_index_at_least_one {R : Rasterizer} (evs : list Current.Event) :
  forall (a : Current.AppComponent) (b : Copy.AppComponent),
  pageCounted a -> pageCountedCopy b ->
  pageCounted (Current.run evs a)
  /\ pageCountedCopy (Copy.run (map toCopy evs) b).
Proof.
  induction evs as [|ev evs IH]; intros a b Ha Hb; [split; assumption|].
  unfold Current.run, Copy.run in *. cbn [map fold_left].
  apply IH; [now apply Current_handle_pageCounted | now apply Copy_handle_pageCounted].
Qed.

(** The constructor's state, then paging with a reload of a shorter
    document. *)
Lemma page_index_at_least_one_witness :
  pageCounted Current.initial /\ pageCountedCopy Copy.initial
  /\ 1 <= Current.currentPage
            (@Current.run squareStroke
               (Current.LoadPdf [Some threePageDoc] :: samplePaging) Current.initial)
  /\ 1 <= Copy.pageNum
            (@Copy.run squareStroke
               (map toCopy (Current.LoadPdf [Some threePageDoc] :: samplePaging))
               Copy.initial).
Proof.
  assert (Ha : pageCounted Current.initial)
    by (split; [discriminate | split; reflexivity]).
  assert (Hb : pageCountedCopy Copy.initial)
    by (split; [discriminate | reflexivity]).
  split; [exact Ha|]. split; [exact Hb|].
  destruct (@page_index_at_least_one squareStroke
              (Current.LoadPdf [Some threePageDoc] :: samplePaging)
              Current.initial Copy.initial Ha Hb) as [[Hone _] [Hone' _]].
  split; [exact Hone | exact Hone'].
Defined.

(** What page-forward, page-back and a load do, case by case. *)
Lemma Current_next_shown (s : Current.AppComponent) (doc : PdfDocument) :
  Current.pdfDoc s = Some doc -> Current.totalPages s = numPages doc ->
  1 <= Current.currentPage s < numPages doc ->
  exists page,
    getPage doc (Current.currentPage s + 1) = Some page
    /\ Current.goToNextPage s
       = Current.displayCanvas
           (Current.set_canvas page
              (Current.set_currentPage (Current.currentPage s + 1) s)).
Proof.
  intros Hdoc Htot Hcur.
  destruct (getPage_some doc (Current.currentPage s + 1) ltac:(lia)) as [page [Hpage _]].
  exists page. split; [exact Hpage|].
  unfold Current.goToNextPage.
  replace (Current.currentPage s <? Current.totalPages s) with true
    by (symmetry; apply Z.ltb_lt; lia).
  apply (Current_renderPage_ok s doc); [exact Hdoc | lia | exact Hpage].
Qed.

Lemma Current_next_last (s : Current.AppComponent) :
  Current.totalPages s <= Current.currentPage s -> Current.goToNextPage s = s.
Proof.
  intros Hlast. unfold Current.goToNextPage.
  replace (Current.currentPage s <? Current.totalPages s) with false; [reflexivity|].
  symmetry. apply Z.ltb_ge. exact Hlast.
Qed.

Lemma Current_prev_shown (s : Current.AppComponent) (doc : PdfDocument) :
  Current.pdfDoc s = Some doc -> Current.totalPages s = numPages doc ->
  1 < Current.currentPage s <= numPages doc ->
  exists page,
    getPage doc (Current.currentPage s - 1) = Some page
    /\ Current.goToPreviousPage s
       = Current.displayCanvas
           (Current.set_canvas page
              (Current.set_currentPage (Current.currentPage s - 1) s)).
Proof.
  intros Hdoc Htot Hcur.
  destruct (getPage_some doc (Current.currentPage s - 1) ltac:(lia)) as [page [Hpage _]].
  exists page. split; [exact Hpage|].
  unfold Current.goToPreviousPage.
  replace (Current.currentPage s >? 1) with true
    by (symmetry; rewrite Z.gtb_ltb; apply Z.ltb_lt; lia).
  apply (Current_renderPage_ok s doc); [exact Hdoc | lia | exact Hpage].
Qed.

Lemma Current_prev_first (s : Current.AppComponent) :
  Current.currentPage s <= 1 -> Current.goToPreviousPage s = s.
Proof.
  intros Hfirst. unfold Current.goToPreviousPage.
  replace (Current.currentPage s >? 1) with false; [reflexivity|].
  symmetry. rewrite Z.gtb_ltb. apply Z.ltb_ge. exact Hfirst.
Qed.

Lemma Current_load_shown (s : Current.AppComponent) (doc : PdfDocument)
    (rest : list File) :
  1 <= Current.currentPage s <= numPages doc ->
  exists page,
    getPage doc (Current.currentPage s) = Some page
    /\ Current.loadPdf (Some doc :: rest) s
       = Current.displayCanvas
           (Current.set_canvas page
              (Current.set_totalPages (numPages doc)
                 (Current.set_pdfDoc (Some doc) s))).
Proof.
  intros Hcur.
  destruct (getPage_some doc _ Hcur) as [page [Hpage _]].
  exists page. split; [exact Hpage|].
  unfold Current.loadPdf. cbv zeta.
  destruct s as [pc d cur tot cv sx sy cw chh sel bd co].
  cbn [Current.currentPage] in Hcur, Hpage.
  rewrite (Current_renderPage_ok _ doc cur page);
    [reflexivity | reflexivity | exact Hcur | exact Hpage].
Qed.

Lemma Copy_next_shown (s : Copy.AppComponent) (doc : PdfDocument) (page : PdfPage) :
  Copy.pdfDoc s = Some doc -> Copy.pageNum s < numPages doc ->
  getPage doc (Copy.pageNum s + 1) = Some page ->
  Copy.goToNextPage s
  = Copy.displayCanvas
      (Copy.set_canvas page
         (Copy.set_page (Some page) (Copy.set_pageNum (Copy.pageNum s + 1) s))).
Proof.
  intros Hdoc Hnum Hpage. unfold Copy.goToNextPage. rewrite Hdoc.
  replace (Copy.pageNum s >=? numPages doc) with false
    by (symmetry; rewrite Z.geb_leb; apply Z.leb_gt; exact Hnum).
  cbv zeta. destruct s as [pc d num pg cv sx sy cw chh sel bd co].
  cbn [Copy.pdfDoc Copy.pageNum] in *. subst d.
  apply (Copy_renderPage_ok _ doc); [reflexivity|exact Hpage].
Qed.

Lemma Copy_next_last (s : Copy.AppComponent) :
  (forall doc, Copy.pdfDoc s = Some doc -> numPages doc <= Copy.pageNum s) ->
  Copy.goToNextPage s = s.
Proof.
  intros Hlast. unfold Copy.goToNextPage.
  destruct (Copy.pdfDoc s) as [doc|]; [|reflexivity].
  replace (Copy.pageNum s >=? numPages doc) with true; [reflexivity|].
  symmetry. rewrite Z.geb_leb. apply Z.leb_le. now apply Hlast.
Qed.

Lemma Copy_prev_shown (s : Copy.AppComponent) (doc : PdfDocument) (page : PdfPage) :
  Copy.pdfDoc s = Some doc -> 1 < Copy.pageNum s ->
  getPage doc (Copy.pageNum s - 1) = Some page ->
  Copy.goToPreviousPage s
  = Copy.displayCanvas
      (Copy.set_canvas page
         (Copy.set_page (Some page) (Copy.set_pageNum (Copy.pageNum s - 1) s))).
Proof.
  intros Hdoc Hnum Hpage. unfold Copy.goToPreviousPage.
  replace (Copy.pageNum s <=? 1) with false
    by (symmetry; apply Z.leb_gt; exact Hnum).
  cbv zeta. destruct s as [pc d num pg cv sx sy cw chh sel bd co].
  cbn [Copy.pdfDoc Copy.pageNum] in *. subst d.
  apply (Copy_renderPage_ok _ doc); [reflexivity|exact Hpage].
Qed.

Lemma Copy_prev_first (s : Copy.AppComponent) :
  Copy.pageNum s <= 1 -> Copy.goToPreviousPage s = s.
Proof.
  intros Hfirst. unfold Copy.goToPreviousPage.
  replace (Copy.pageNum s <=? 1) with true; [reflexivity|].
  symmetry. apply Z.leb_le. exact Hfirst.
Qed.

Lemma Copy_load_shown (s : Copy.AppComponent) (doc : PdfDocument)
    (rest : list File) (page : PdfPage) :
  getPage doc (Copy.pageNum s) = Some page ->
  Copy.loadPdf (Some doc :: rest) s
  = Copy.displayCanvas
      (Copy.set_canvas page (Copy.set_page (Some page) (Copy.set_pdfDoc (Some doc) s))).
Proof.
  intros Hpage. unfold Copy.loadPdf. cbv zeta.
  destruct s as [pc d num pg cv sx sy cw chh sel bd co].
  cbn [Copy.pageNum] in Hpage.
  apply (Copy_renderPage_ok _ doc); [reflexivity|exact Hpage].
Qed.

(** X10.  Page-forward below the last page, in a state whose page count is
    the document's: the page index goes up by one, the offscreen canvas
    becomes the next page of the document and the displayed canvas shows its
    pixels.  Both versions. *)
Theorem goToNextPage_shows_next_page
    (a : Current.AppComponent) (b : Copy.AppComponent) (doc : PdfDocument) :
  Current.pdfDoc a = Some doc -> Current.totalPages a = numPages doc ->
  1 <= Current.currentPage a < numPages doc ->
  Copy.pdfDoc b = Some doc -> 1 <= Copy.pageNum b < numPages doc ->
  exists pa pb,
    nth_error (pages doc) (Z.to_nat (Current.currentPage a)) = Some pa
    /\ nth_error (pages doc) (Z.to_nat (Copy.pageNum b)) = Some pb
    /\ (Current.currentPage (Current.goToNextPage a) = Current.currentPage a + 1
        /\ Current.canvas (Current.goToNextPage a) = pa
        /\ samePixels (Current.pdfCanvas (Current.goToNextPage a)) pa)
    /\ (Copy.pageNum (Copy.goToNextPage b) = Copy.pageNum b + 1
        /\ Copy.canvas (Copy.goToNextPage b) = pb
        /\ samePixels (Copy.pdfCanvas (Copy.goToNextPage b)) pb).
Proof.
  intros Hda Htot Ha Hdb Hb.
  destruct (Current_next_shown a doc Hda Htot Ha) as [pa [Hpa Hnext]].
  destruct (getPage_some doc (Copy.pageNum b + 1) ltac:(lia)) as [pb [Hpb Hnb]].
  pose proof (Copy_next_shown b doc pb Hdb ltac:(lia) Hpb) as Hnext'.
  destruct (getPage_some doc (Current.currentPage a + 1) ltac:(lia)) as [pa' [Hpa' Hna]].
  assert (pa' = pa) by congruence. subst pa'.
  exists pa, pb.
  replace (Current.currentPage a + 1 - 1) with (Current.currentPage a) in Hna by lia.
  replace (Copy.pageNum b + 1 - 1) with (Copy.pageNum b) in Hnb by lia.
  split; [exact Hna|]. split; [exact Hnb|].
  rewrite Hnext, Hnext'. split.
  - destruct a. repeat split; try reflexivity; apply drawImage_samePixels.
  - destruct b. repeat split; try reflexivity; apply drawImage_samePixels.
Qed.

(** From page 2 of the three-page document to its third page. *)
Lemma goToNextPage_shows_next_page_witness :
  1 <= Current.currentPage middleCurrent < numPages threePageDoc
  /\ 1 <= Copy.pageNum middleCopy < numPages threePageDoc
  /\ Current.canvas (Current.goToNextPage middleCurrent) = solidPage 8 6 opaqueRed
  /\ Copy.canvas (Copy.goToNextPage middleCopy) = solidPage 8 6 opaqueRed.
Proof.
  assert (Ha : 1 <= Current.currentPage middleCurrent < numPages threePageDoc)
    by (vm_compute; split; [discriminate|reflexivity]).
  assert (Hb : 1 <= Copy.pageNum middleCopy < numPages threePageDoc)
    by (vm_compute; split; [discriminate|reflexivity]).
  split; [exact Ha|]. split; [exact Hb|].
  destruct (goToNextPage_shows_next_page middleCurrent middleCopy threePageDoc
              ltac:(vm_compute; reflexivity) ltac:(vm_compute; reflexivity) Ha
              ltac:(vm_compute; reflexivity) Hb)
    as [pa [pb [Hna [Hnb [[_ [Hca _]] [_ [Hcb _]]]]]]].
  rewrite Hca, Hcb. vm_compute in Hna. vm_compute in Hnb.
  injection Hna as <-. injection Hnb as <-.
  split; vm_compute; reflexivity.
Defined.

(** X11.  Page-back above the first page, in a state whose page index lies
    within the document: the page index goes down by one, the offscreen
    canvas becomes the previous page of the document and the displayed canvas
    shows its pixels.  Both versions. *)
Theorem goToPreviousPage_shows_previous_page
    (a : Current.AppComponent) (b : Copy.AppComponent) (doc : PdfDocument) :
  Current.pdfDoc a = Some doc -> Current.totalPages a = numPages doc ->
  1 < Current.currentPage a <= numPages doc ->
  Copy.pdfDoc b = Some doc -> 1 < Copy.pageNum b <= numPages doc ->
  exists pa pb,
    nth_error (pages doc) (Z.to_nat (Current.currentPage a - 2)) = Some pa
    /\ nth_error (pages doc) (Z.to_nat (Copy.pageNum b - 2)) = Some pb
    /\ (Current.currentPage (Current.goToPreviousPage a) = Current.currentPage a - 1
        /\ Current.canvas (Current.goToPreviousPage a) = pa
        /\ samePixels (Current.pdfCanvas (Current.goToPreviousPage a)) pa)
    /\ (Copy.pageNum (Copy.goToPreviousPage b) = Copy.pageNum b - 1
        /\ Copy.canvas (Copy.goToPreviousPage b) = pb
        /\ samePixels (Copy.pdfCanvas (Copy.goToPreviousPage b)) pb).
Proof.
  intros Hda Htot Ha Hdb Hb.
  destruct (Current_prev_shown a doc Hda Htot Ha) as [pa [Hpa Hprev]].
  destruct (getPage_some doc (Copy.pageNum b - 1) ltac:(lia)) as [pb [Hpb Hnb]].
  pose proof (Copy_prev_shown b doc pb Hdb ltac:(lia) Hpb) as Hprev'.
  destruct (getPage_some doc (Current.currentPage a - 1) ltac:(lia)) as [pa' [Hpa' Hna]].
  assert (pa' = pa) by congruence. subst pa'.
  exists pa, pb.
  replace (Current.currentPage a - 1 - 1) with (Current.currentPage a - 2) in Hna by lia.
  replace (Copy.pageNum b - 1 - 1) with (Copy.pageNum b - 2) in Hnb by lia.
  split; [exact Hna|]. split; [exact Hnb|].
  rewrite Hprev, Hprev'. split.
  - destruct a. repeat split; try reflexivity; apply drawImage_samePixels.
  - destruct b. repeat split; try reflexivity; apply drawImage_samePixels.
Qed.

(** From page 2 of the three-page document to its first page. *)
Lemma goToPreviousPage_shows_previous_page_witness :
  1 < Current.currentPage middleCurrent <= numPages threePageDoc
  /\ 1 < Copy.pageNum middleCopy <= numPages threePageDoc
  /\ Current.canvas (Current.goToPreviousPage middleCurrent) = gradientPage 8 6
  /\ Copy.canvas (Copy.goToPreviousPage middleCopy) = gradientPage 8 6.
Proof.
  assert (Ha : 1 < Current.currentPage middleCurrent <= numPages threePageDoc)
    by (vm_compute; split; [reflexivity|discriminate]).
  assert (Hb : 1 < Copy.pageNum middleCopy <= numPages threePageDoc)
    by (vm_compute; split; [reflexivity|discriminate]).
  split; [exact Ha|]. split; [exact Hb|].
  destruct (goToPreviousPage_shows_previous_page middleCurrent middleCopy threePageDoc
              ltac:(vm_compute; reflexivity) ltac:(vm_compute; reflexivity) Ha
              ltac:(vm_compute; reflexivity) Hb)
    as [pa [pb [Hna [Hnb [[_ [Hca _]] [_ [Hcb _]]]]]]].
  rewrite Hca, Hcb. vm_compute in Hna. vm_compute in Hnb.
  injection Hna as <-. injection Hnb as <-.
  split; vm_compute; reflexivity.
Defined.

(** ** Sessions *)

Lemma Current_handle_no_document {R : Rasterizer} (s : Current.AppComponent)
    (ev : Current.Event) :
  Current.pdfDoc s = None -> pageCounted s -> loadsDocument ev = false ->
  pageState (Current.handle s ev) = pageState s.
Proof.
  intros Hnone [_ Hinv] Hev. rewrite Hnone in Hinv. destruct Hinv as [Htot Hcur].
  destruct ev as [files| | |e|e|]; cbn [Current.handle].
  - destruct files as [|[doc|] rest]; [reflexivity|discriminate Hev|reflexivity].
  - rewrite Current_prev_first by lia. reflexivity.
  - rewrite Current_next_last by lia. reflexivity.
  - apply (Current_crop_handlers_pageState s e).
  - apply (Current_crop_handlers_pageState s e).
  - apply (Current_crop_handlers_pageState s (mkMouse 0 0)).
Qed.

Lemma Copy_handle_no_document {R : Rasterizer} (s : Copy.AppComponent)
    (ev : Current.Event) :
  Copy.pdfDoc s = None -> pageCountedCopy s -> loadsDocument ev = false ->
  pageStateCopy (Copy.handle s (toCopy ev)) = pageStateCopy s.
Proof.
  intros Hnone [_ Hinv] Hev. specialize (Hinv Hnone).
  destruct ev as [files| | |e|e|]; cbn [toCopy Copy.handle].
  - destruct files as [|[doc|] rest]; [reflexivity|discriminate Hev|reflexivity].
  - rewrite Copy_prev_first by lia. reflexivity.
  - rewrite Copy_next_last; [reflexivity|].
    intros doc Hdoc. congruence.
  - apply (Copy_crop_handlers_pageState s e).
  - apply (Copy_crop_handlers_pageState s e).
  - apply (Copy_crop_handlers_pageState s (mkMouse 0 0)).
Qed.

(** X12.  While no document is held, no run of handlers other than a load
    of a readable document changes the page state: the index stays 1, the
    count 0 (in the copy: no page handle), no document, the offscreen canvas
    as it was.  Loads without a file or of an unreadable file count among
    these handlers.  Both versions. *)
Theorem no_document_no_page {R : Rasterizer} (evs : list Current.Event) :
  forall (a : Current.AppComponent) (b : Copy.AppComponent),
  Current.pdfDoc a = None -> pageCounted a ->
  Copy.pdfDoc b = None -> pageCountedCopy b ->
  forallb (fun ev => negb (loadsDocument ev)) evs = true ->
  pageState (Current.run evs a) = pageState a
  /\ pageStateCopy (Copy.run (map toCopy evs) b) = pageStateCopy b.
Proof.
  induction evs as [|ev evs IH]; intros a b Hna Ha Hnb Hb Hevs; [split; reflexivity|].
  cbn [forallb] in Hevs. apply andb_true_iff in Hevs. destruct Hevs as [Hev Hrest].
  apply negb_true_iff in Hev.
  pose proof (Current_handle_no_document a ev Hna Ha Hev) as Hsa.
  pose proof (Copy_handle_no_document b ev Hnb Hb Hev) as Hsb.
  unfold Current.run, Copy.run in *. cbn [map fold_left].
  destruct (IH (Current.handle a ev) (Copy.handle b (toCopy ev))) as [Hra Hrb].
  - unfold pageState in Hsa. injection Hsa as -> _ _ _. exact Hna.
  - exact (pageCounted_ext _ _ Hsa Ha).
  - unfold pageStateCopy in Hsb. injection Hsb as -> _ _ _. exact Hnb.
  - exact (pageCountedCopy_ext _ _ Hsb Hb).
  - exact Hrest.
  - rewrite Hra, Hrb. split; assumption.
Qed.

(** Paging, a failed load and a drag on the constructor's state. *)
Lemma no_document_no_page_witness :
  forallb (fun ev => negb (loadsDocument ev)) sampleIdleSession = true
  /\ pageState (@Current.run squareStroke sampleIdleSession Current.initial)
     = pageState Current.initial
  /\ pageStateCopy (@Copy.run squareStroke (map toCopy sampleIdleSession) Copy.initial)
     = pageStateCopy Copy.initial.
Proof.
  assert (Ha : pageCounted Current.initial)
    by (split; [discriminate | split; reflexivity]).
  assert (Hb : pageCountedCopy Copy.initial)
    by (split; [discriminate | reflexivity]).
  split; [reflexivity|].
  apply (@no_document_no_page squareStroke sampleIdleSession
           Current.initial Copy.initial eq_refl Ha eq_refl Hb).
  reflexivity.
Defined.

Lemma pageShown_rendered (s : Current.AppComponent) (doc : PdfDocument)
    (n : Z) (page : PdfPage) :
  Current.pdfDoc s = Some doc -> Current.totalPages s = numPages doc ->
  1 <= n <= numPages doc -> getPage doc n = Some page ->
  pageShown (Current.displayCanvas (Current.set_canvas page (Current.set_currentPage n s))).
Proof.
  intros Hdoc Htot Hn Hpage. destruct s as [pc d cur tot cv sx sy cw chh sel bd co].
  cbn [Current.pdfDoc Current.totalPages] in Hdoc, Htot. subst d tot.
  unfold pageShown. cbn. repeat split; try lia. exact Hpage.
Qed.

Lemma pageShown_index (s : Current.AppComponent) :
  pageShown s -> 1 <= Current.currentPage s.
Proof.
  unfold pageShown. destruct (Current.pdfDoc s); lia.
Qed.

Lemma Current_handle_pageShown {R : Rasterizer} (s : Current.AppComponent)
    (ev : Current.Event) :
  pageShown s -> loadFits s ev = true -> pageShown (Current.handle s ev).
Proof.
  intros Hinv Hfit.
  destruct ev as [files| | |e|e|]; cbn [Current.handle].
  - destruct files as [|[doc|] rest]; try exact Hinv.
    cbn [loadFits] in Hfit. apply Z.leb_le in Hfit.
    pose proof (pageShown_index s Hinv) as Hone.
    destruct (Current_load_shown s doc rest ltac:(lia)) as [page [Hpage Hload]].
    unfold File in *. rewrite Hload.
    destruct s as [pc d cur tot cv sx sy cw chh sel bd co].
    cbn [Current.currentPage] in *.
    unfold pageShown. cbn. repeat split; try lia. exact Hpage.
  - pose proof Hinv as Hshown. unfold pageShown in Hshown.
    destruct (Current.pdfDoc s) as [doc|] eqn:Hdoc.
    + destruct Hshown as (Htot & Hcur & _).
      destruct (Z.le_gt_cases (Current.currentPage s) 1) as [Hfirst|Hmore].
      * rewrite Current_prev_first by exact Hfirst. exact Hinv.
      * destruct (Current_prev_shown s doc Hdoc Htot ltac:(lia)) as [page [Hpage Hprev]].
        rewrite Hprev. apply (pageShown_rendered s doc); try assumption. lia.
    + rewrite Current_prev_first by lia. exact Hinv.
  - pose proof Hinv as Hshown. unfold pageShown in Hshown.
    destruct (Current.pdfDoc s) as [doc|] eqn:Hdoc.
    + destruct Hshown as (Htot & Hcur & _).
      destruct (Z.le_gt_cases (numPages doc) (Current.currentPage s)) as [Hlast|Hmore].
      * rewrite Current_next_last by lia. exact Hinv.
      * destruct (Current_next_shown s doc Hdoc Htot ltac:(lia)) as [page [Hpage Hnext]].
        rewrite Hnext. apply (pageShown_rendered s doc); try assumption. lia.
    + rewrite Current_next_last by lia. exact Hinv.
  - apply (pageShown_ext s); [apply (Current_crop_handlers_pageState s e)|exact Hinv].
  - apply (pageShown_ext s); [apply (Current_crop_handlers_pageState s e)|exact Hinv].
  - apply (pageShown_ext s);
      [apply (Current_crop_handlers_pageState s (mkMouse 0 0))|exact Hinv].
Qed.



(** ** The two versions side by side *)

Ltac same_fields Hview :=
  unfold sameView, Current.cropRect, Copy.cropRect in Hview;
  cbn [Current.pdfCanvas Current.pdfDoc Current.currentPage Current.totalPages
       Current.canvas Current.cropStartX Current.cropStartY Current.cropWidth
       Current.cropHeight Current.isSelecting Current.body Current.console
       Copy.pdfCanvas Copy.pdfDoc Copy.pageNum Copy.page
       Copy.canvas Copy.cropStartX Copy.cropStartY Copy.cropWidth
       Copy.cropHeight Copy.isSelecting Copy.body Copy.console] in Hview;
  destruct Hview as (Hpc & Hcv & Hdoc & Hidx & Hrect & Hsel & Hbody & Hlog);
  injection Hrect as Hsx Hsy Hcw Hch; subst.

Lemma sameView_rendered (a : Current.AppComponent) (b : Copy.AppComponent)
    (n : Z) (page : PdfPage) :
  sameView a b ->
  sameView
    (Current.displayCanvas (Current.set_canvas page (Current.set_currentPage n a)))
    (Copy.displayCanvas
       (Copy.set_canvas page (Copy.set_page (Some page) (Copy.set_pageNum n b)))).
Proof.
  intros Hview.
  destruct a as [pc d cur tot cv sx sy cw chh sel bd co].
  destruct b as [pc' d' num pg cv' sx' sy' cw' chh' sel' bd' co'].
  same_fields Hview. repeat split.
Qed.

Lemma sameView_loaded (a : Current.AppComponent) (b : Copy.AppComponent)
    (doc : PdfDocument) (page : PdfPage) :
  sameView a b ->
  sameView
    (Current.displayCanvas
       (Current.set_canvas page
          (Current.set_totalPages (numPages doc) (Current.set_pdfDoc (Some doc) a))))
    (Copy.displayCanvas
       (Copy.set_canvas page (Copy.set_page (Some page) (Copy.set_pdfDoc (Some doc) b)))).
Proof.
  intros Hview.
  destruct a as [pc d cur tot cv sx sy cw chh sel bd co].
  destruct b as [pc' d' num pg cv' sx' sy' cw' chh' sel' bd' co'].
  same_fields Hview. repeat split.
Qed.

Lemma sameView_crop {R : Rasterizer} (a : Current.AppComponent)
    (b : Copy.AppComponent) (e : MouseEvent) :
  sameView a b ->
  sameView (Current.startCrop e a) (Copy.startCrop e b)
  /\ sameView (Current.onMouseMove e a) (Copy.onMouseMove e b)
  /\ sameView (Current.endCrop a) (Copy.endCrop b).
Proof.
  intros Hview.
  destruct a as [pc d cur tot cv sx sy cw chh sel bd co].
  destruct b as [pc' d' num pg cv' sx' sy' cw' chh' sel' bd' co'].
  same_fields Hview. split; [|split].
  - repeat split.
  - crop_unfold. destruct sel'; repeat split.
  - crop_unfold. destruct ((cw' =? 0) || (chh' =? 0)); [repeat split|].
    unfold Current.cropImage, Copy.cropImage. crop_unfold.
    destruct ((cw' <=? 0) || (chh' <=? 0)); [repeat split|].
    destruct (getImageData pc' sx' sy' cw' chh'); repeat split.
Qed.

Lemma sameView_step {R : Rasterizer} (a : Current.AppComponent)
    (b : Copy.AppComponent) (ev : Current.Event) :
  sameView a b -> pageShown a -> loadFits a ev = true ->
  sameView (Current.handle a ev) (Copy.handle b (toCopy ev)).
Proof.
  intros Hview Hshown Hfit.
  pose proof Hview as (_ & _ & Hdoc & Hidx & _).
  pose proof (pageShown_index a Hshown) as Hone.
  destruct ev as [files| | |e|e|]; cbn [toCopy Current.handle Copy.handle].
  - destruct files as [|[doc|] rest]; try exact Hview.
    cbn [loadFits] in Hfit. apply Z.leb_le in Hfit.
    destruct (Current_load_shown a doc rest ltac:(lia)) as [page [Hpage Hload]].
    unfold File in *. rewrite Hload.
    rewrite (Copy_load_shown b doc rest page) by (rewrite <- Hidx; exact Hpage).
    now apply sameView_loaded.
  - unfold pageShown in Hshown.
    destruct (Current.pdfDoc a) as [doc|] eqn:Hda.
    + destruct Hshown as (Htot & Hcur & _).
      destruct (Z.le_gt_cases (Current.currentPage a) 1) as [Hfirst|Hmore].
      * rewrite Current_prev_first by exact Hfirst.
        rewrite Copy_prev_first by lia. exact Hview.
      * destruct (Current_prev_shown a doc Hda Htot ltac:(lia)) as [page [Hpage Hprev]].
        rewrite Hprev.
        rewrite (Copy_prev_shown b doc page) by (try rewrite <- Hidx; auto; lia).
        rewrite <- Hidx. now apply sameView_rendered.
    + rewrite Current_prev_first by lia.
      rewrite Copy_prev_first by lia. exact Hview.
  - unfold pageShown in Hshown.
    destruct (Current.pdfDoc a) as [doc|] eqn:Hda.
    + destruct Hshown as (Htot & Hcur & _).
      destruct (Z.le_gt_cases (numPages doc) (Current.currentPage a)) as [Hlast|Hmore].
      * rewrite Current_next_last by lia.
        rewrite Copy_next_last; [exact Hview|].
        intros doc' Hdoc'. rewrite <- Hdoc in Hdoc'. injection Hdoc' as <-. lia.
      * destruct (Current_next_shown a doc Hda Htot ltac:(lia)) as [page [Hpage Hnext]].
        rewrite Hnext.
        rewrite (Copy_next_shown b doc page) by (try rewrite <- Hidx; auto; lia).
        rewrite <- Hidx. now apply sameView_rendered.
    + rewrite Current_next_last by lia.
      rewrite Copy_next_last; [exact Hview|].
      intros doc' Hdoc'. rewrite <- Hdoc in Hdoc'. discriminate Hdoc'.
  - apply (sameView_crop a b e Hview).
  - apply (sameView_crop a b e Hview).
  - apply (sameView_crop a b (mkMouse 0 0) Hview).
Qed.

(** X14.  Started alike and fed the same handler calls, the two versions
    stay alike in everything they share (both canvases, the document, the
    page index, the crop rectangle, the selecting flag, the nodes appended
    and the console), as long as the page state of the current version is in
    order at the start and no document is loaded that has fewer pages than
    the page index held. *)
Theorem versions_agree_while_reloads_fit {R : Rasterizer} (evs : list Current.Event) :
  forall (a : Current.AppComponent) (b : Copy.AppComponent),
  sameView a b -> pageShown a -> reloadsFit evs a = true ->
  sameView (Current.run evs a) (Copy.run (map toCopy evs) b).
Proof.
  induction evs as [|ev evs IH]; intros a b Hview Hshown Hfit; [exact Hview|].
  cbn [reloadsFit] in Hfit. apply andb_true_iff in Hfit. destruct Hfit as [Hev Hrest].
  unfold Current.run, Copy.run in *. cbn [map fold_left].
  apply IH; [now apply sameView_step | now apply Current_handle_pageShown | exact Hrest].
Qed.

(** The session on the three-page document, in both versions, from the
    constructors' states. *)
Lemma versions_agree_while_reloads_fit_witness :
  sameView Current.initial Copy.initial
  /\ pageShown Current.initial
  /\ @reloadsFit squareStroke sampleSession Current.initial = true
  /\ sameView (@Current.run squareStroke sampleSession Current.initial)
       (@Copy.run squareStroke (map toCopy sampleSession) Copy.initial).
Proof.
  assert (Hview : sameView Current.initial Copy.initial) by (repeat split).
  assert (Ha : pageShown Current.initial) by (split; reflexivity).
  assert (Hfit : @reloadsFit squareStroke sampleSession Current.initial = true)
    by (vm_compute; reflexivity).
  split; [exact Hview|]. split; [exact Ha|]. split; [exact Hfit|].
  exact (@versions_agree_while_reloads_fit squareStroke sampleSession
           Current.initial Copy.initial Hview Ha Hfit).
Defined.

(** ** Exports *)

Lemma Current_endCrop_display (s : Current.AppComponent) :
  Current.pdfCanvas (Current.endCrop s) = Current.pdfCanvas s.
Proof.
  destruct s as [pc d cur tot cv sx sy cw chh sel bd co]. crop_unfold.
  destruct ((cw =? 0) || (chh =? 0)); [reflexivity|].
  unfold Current.cropImage. crop_unfold.
  destruct ((cw <=? 0) || (chh <=? 0)); [reflexivity|].
  destruct (getImageData pc sx sy cw chh); reflexivity.
Qed.

Lemma Copy_endCrop_display (s : Copy.AppComponent) :
  Copy.pdfCanvas (Copy.endCrop s) = Copy.pdfCanvas s.
Proof.
  destruct s as [pc d num pg cv sx sy cw chh sel bd co]. crop_unfold.
  destruct ((cw =? 0) || (chh =? 0)); [reflexivity|].
  unfold Copy.cropImage. crop_unfold.
  destruct ((cw <=? 0) || (chh <=? 0)); [reflexivity|].
  destruct (getImageData pc sx sy cw chh); reflexivity.
Qed.

(** X15.  [endCrop] does not use up the selection: it leaves the crop
    rectangle and the displayed canvas as they are, so on a rectangle of
    positive size a second [endCrop] with no [startCrop] in between appends
    the same image, with its download link, a second time.  Both versions. *)
Theorem endCrop_twice_exports_twice
    (a : Current.AppComponent) (b : Copy.AppComponent) :
  0 < Current.cropWidth a -> 0 < Current.cropHeight a ->
  0 < Copy.cropWidth b -> 0 < Copy.cropHeight b ->
  let ia := region (Current.pdfCanvas a) (Current.cropStartX a) (Current.cropStartY a)
                   (Current.cropWidth a) (Current.cropHeight a) in
  let ib := region (Copy.pdfCanvas b) (Copy.cropStartX b) (Copy.cropStartY b)
                   (Copy.cropWidth b) (Copy.cropHeight b) in
  (Current.cropRect (Current.endCrop a) = Current.cropRect a
   /\ Current.pdfCanvas (Current.endCrop a) = Current.pdfCanvas a
   /\ Current.body (Current.endCrop a) = Current.body a ++ exported ia
   /\ Current.body (Current.endCrop (Current.endCrop a))
      = Current.body a ++ exported ia ++ exported ia)
  /\ (Copy.cropRect (Copy.endCrop b) = Copy.cropRect b
      /\ Copy.pdfCanvas (Copy.endCrop b) = Copy.pdfCanvas b
      /\ Copy.body (Copy.endCrop b) = Copy.body b ++ exported ib
      /\ Copy.body (Copy.endCrop (Copy.endCrop b))
         = Copy.body b ++ exported ib ++ exported ib).
Proof.
  intros Haw Hah Hbw Hbh ia ib. split.
  - pose proof (Current_endCrop_cropRect a) as Hrect.
    pose proof (Current_endCrop_display a) as Hpc.
    pose proof (Current_endCrop_valid a Haw Hah) as Hone.
    split; [exact Hrect|]. split; [exact Hpc|]. split; [exact Hone|].
    unfold Current.cropRect in Hrect. injection Hrect as Hx Hy Hw Hh.
    rewrite Current_endCrop_valid by (rewrite ?Hw, ?Hh; assumption).
    rewrite Hone, Hpc, Hx, Hy, Hw, Hh. rewrite <- app_assoc. reflexivity.
  - pose proof (Copy_endCrop_cropRect b) as Hrect.
    pose proof (Copy_endCrop_display b) as Hpc.
    pose proof (Copy_endCrop_valid b Hbw Hbh) as Hone.
    split; [exact Hrect|]. split; [exact Hpc|]. split; [exact Hone|].
    unfold Copy.cropRect in Hrect. injection Hrect as Hx Hy Hw Hh.
    rewrite Copy_endCrop_valid by (rewrite ?Hw, ?Hh; assumption).
    rewrite Hone, Hpc, Hx, Hy, Hw, Hh. rewrite <- app_assoc. reflexivity.
Qed.

(** The loaded page after a drag from (1,1) to (4,3): two mouse-ups. *)
Lemma endCrop_twice_exports_twice_witness :
  0 < Current.cropWidth
        (@Current.drag squareStroke (mkMouse 1 1) [mkMouse 4 3] loadedCurrent)
  /\ List.length
       (Current.body
          (Current.endCrop (Current.endCrop
             (@Current.drag squareStroke (mkMouse 1 1) [mkMouse 4 3] loadedCurrent))))
     = 4%nat.
Proof.
  assert (Haw : 0 < Current.cropWidth
                      (@Current.drag squareStroke (mkMouse 1 1) [mkMouse 4 3]
                         loadedCurrent)) by (vm_compute; reflexivity).
  split; [exact Haw|].
  destruct (endCrop_twice_exports_twice
              (@Current.drag squareStroke (mkMouse 1 1) [mkMouse 4 3] loadedCurrent)
              (@Copy.drag squareStroke (mkMouse 1 1) [mkMouse 4 3] loadedCopy)
              Haw ltac:(vm_compute; reflexivity) ltac:(vm_compute; reflexivity)
              ltac:(vm_compute; reflexivity)) as [[_ [_ [_ Htwice]]] _].
  rewrite Htwice. rewrite !length_app. reflexivity.
Defined.

Lemma Current_handle_output {R : Rasterizer} (s : Current.AppComponent)
    (ev : Current.Event) :
  exists imgs n,
    Current.body (Current.handle s ev) = Current.body s ++ flat_map exported imgs
    /\ Current.console (Current.handle s ev)
       = Current.console s ++ repeat "Invalid crop area"%string n.
Proof.
  assert (Hsame : forall s', cropState s' = cropState s ->
            exists imgs n,
              Current.body s' = Current.body s ++ flat_map exported imgs
              /\ Current.console s'
                 = Current.console s ++ repeat "Invalid crop area"%string n).
  { intros s' Heq. unfold cropState in Heq. injection Heq as _ _ Hb Hc.
    exists [], 0%nat. cbn [flat_map repeat]. rewrite !app_nil_r. split; assumption. }
  destruct ev as [files| | |e|e|]; cbn [Current.handle].
  - apply Hsame. apply (Current_page_handlers_cropState s files).
  - apply Hsame. apply (Current_page_handlers_cropState s []).
  - apply Hsame. apply (Current_page_handlers_cropState s []).
  - exists [], 0%nat. cbn [flat_map repeat]. rewrite !app_nil_r.
    destruct s. split; reflexivity.
  - exists [], 0%nat. cbn [flat_map repeat]. rewrite !app_nil_r.
    destruct s as [pc d cur tot cv sx sy cw chh sel bd co]. crop_unfold.
    destruct sel; split; reflexivity.
  - destruct (Z.le_gt_cases (Current.cropWidth s) 0) as [Hw|Hw];
      [|destruct (Z.le_gt_cases (Current.cropHeight s) 0) as [Hh|Hh]].
    + rewrite Current_endCrop_rejected by (left; exact Hw).
      destruct ((Current.cropWidth s =? 0) || (Current.cropHeight s =? 0));
        [exists [], 0%nat | exists [], 1%nat];
        cbn [flat_map repeat]; rewrite ?app_nil_r; destruct s; split; reflexivity.
    + rewrite Current_endCrop_rejected by (right; exact Hh).
      destruct ((Current.cropWidth s =? 0) || (Current.cropHeight s =? 0));
        [exists [], 0%nat | exists [], 1%nat];
        cbn [flat_map repeat]; rewrite ?app_nil_r; destruct s; split; reflexivity.
    + exists [region (Current.pdfCanvas s) (Current.cropStartX s)
                (Current.cropStartY s) (Current.cropWidth s) (Current.cropHeight s)],
             0%nat.
      cbn [flat_map repeat]. rewrite !app_nil_r.
      split; [apply Current_endCrop_valid; lia|].
      unfold Current.endCrop.
      replace ((Current.cropWidth s =? 0) || (Current.cropHeight s =? 0)) with false
        by (symmetry; apply orb_false_iff; split; apply Z.eqb_neq; lia).
      rewrite Current_cropImage_valid by (destruct s; assumption).
      destruct s. reflexivity.
Qed.

Lemma Copy_handle_output {R : Rasterizer} (s : Copy.AppComponent)
    (ev : Current.Event) :
  exists imgs n,
    Copy.body (Copy.handle s (toCopy ev)) = Copy.body s ++ flat_map exported imgs
    /\ Copy.console (Copy.handle s (toCopy ev))
       = Copy.console s ++ repeat "Invalid crop area"%string n.
Proof.
  assert (Hsame : forall s', cropStateCopy s' = cropStateCopy s ->
            exists imgs n,
              Copy.body s' = Copy.body s ++ flat_map exported imgs
              /\ Copy.console s'
                 = Copy.console s ++ repeat "Invalid crop area"%string n).
  { intros s' Heq. unfold cropStateCopy in Heq. injection Heq as _ _ Hb Hc.
    exists [], 0%nat. cbn [flat_map repeat]. rewrite !app_nil_r. split; assumption. }
  destruct ev as [files| | |e|e|]; cbn [toCopy Copy.handle].
  - apply Hsame. apply (Copy_page_handlers_cropState s files).
  - apply Hsame. apply (Copy_page_handlers_cropState s []).
  - apply Hsame. apply (Copy_page_handlers_cropState s []).
  - exists [], 0%nat. cbn [flat_map repeat]. rewrite !app_nil_r.
    destruct s. split; reflexivity.
  - exists [], 0%nat. cbn [flat_map repeat]. rewrite !app_nil_r.
    destruct s as [pc d num pg cv sx sy cw chh sel bd co]. crop_unfold.
    destruct sel; split; reflexivity.
  - destruct (Z.le_gt_cases (Copy.cropWidth s) 0) as [Hw|Hw];
      [|destruct (Z.le_gt_cases (Copy.cropHeight s) 0) as [Hh|Hh]].
    + rewrite Copy_endCrop_rejected by (left; exact Hw).
      destruct ((Copy.cropWidth s =? 0) || (Copy.cropHeight s =? 0));
        [exists [], 0%nat | exists [], 1%nat];
        cbn [flat_map repeat]; rewrite ?app_nil_r; destruct s; split; reflexivity.
    + rewrite Copy_endCrop_rejected by (right; exact Hh).
      destruct ((Copy.cropWidth s =? 0) || (Copy.cropHeight s =? 0));
        [exists [], 0%nat | exists [], 1%nat];
        cbn [flat_map repeat]; rewrite ?app_nil_r; destruct s; split; reflexivity.
    + exists [region (Copy.pdfCanvas s) (Copy.cropStartX s)
                (Copy.cropStartY s) (Copy.cropWidth s) (Copy.cropHeight s)],
             0%nat.
      cbn [flat_map repeat]. rewrite !app_nil_r.
      split; [apply Copy_endCrop_valid; lia|].
      unfold Copy.endCrop.
      replace ((Copy.cropWidth s =? 0) || (Copy.cropHeight s =? 0)) with false
        by (symmetry; apply orb_false_iff; split; apply Z.eqb_neq; lia).
      rewrite Copy_cropImage_valid by (destruct s; assumption).
      destruct s. reflexivity.
Qed.

(** X16.  Over any run of handlers the page body and the console only
    grow, and in one way each: the body by pairs of a canvas and a download
    link named 'cropped_image.png' to the same image, the console by
    'Invalid crop area' messages.  The images offered grow by the images of
    those pairs.  Nothing is ever removed.  Both versions. *)
Theorem body_and_console_only_grow {R : Rasterizer} (evs : list Current.Event) :
  forall (a : Current.AppComponent) (b : Copy.AppComponent),
  (exists imgs n,
      Current.body (Current.run evs a) = Current.body a ++ flat_map exported imgs
      /\ Current.outputImages (Current.run evs a) = Current.outputImages a ++ imgs
      /\ Current.console (Current.run evs a)
         = Current.console a ++ repeat "Invalid crop area"%string n)
  /\ (exists imgs n,
      Copy.body (Copy.run (map toCopy evs) b) = Copy.body b ++ flat_map exported imgs
      /\ Copy.outputImages (Copy.run (map toCopy evs) b) = Copy.outputImages b ++ imgs
      /\ Copy.console (Copy.run (map toCopy evs) b)
         = Copy.console b ++ repeat "Invalid crop area"%string n).
Proof.
  assert (Hout : forall nodes imgs,
            flat_map (fun n => match n with
                               | AnchorNode href _ _ => [decoded href]
                               | CanvasNode _ => []
                               end) (nodes ++ flat_map exported imgs)
            = flat_map (fun n => match n with
                                 | AnchorNode href _ _ => [decoded href]
                                 | CanvasNode _ => []
                                 end) nodes ++ imgs).
  { intros nodes imgs. rewrite flat_map_app. f_equal.
    induction imgs as [|img imgs IH]; [reflexivity|].
    cbn [flat_map exported app] in *. unfold toDataURL at 1. cbn [decoded app].
    f_equal. exact IH. }
  induction evs as [|ev evs IH]; intros a b.
  - split; exists [], 0%nat; cbn [flat_map repeat]; rewrite !app_nil_r;
      repeat split; reflexivity.
  - unfold Current.run, Copy.run in *. cbn [map fold_left].
    destruct (IH (Current.handle a ev) (Copy.handle b (toCopy ev)))
      as [(ia & na & Hba & _ & Hca) (ib & nb & Hbb & _ & Hcb)].
    destruct (Current_handle_output a ev) as (ia0 & na0 & Hba0 & Hca0).
    destruct (Copy_handle_output b ev) as (ib0 & nb0 & Hbb0 & Hcb0).
    split.
    + exists (ia0 ++ ia), (na0 + na)%nat.
      assert (Hbody : Current.body (fold_left Current.handle evs (Current.handle a ev))
                      = Current.body a ++ flat_map exported (ia0 ++ ia))
        by (rewrite Hba, Hba0, flat_map_app, app_assoc; reflexivity).
      split; [exact Hbody|]. split.
      * unfold Current.outputImages. rewrite Hbody. apply Hout.
      * rewrite Hca, Hca0, repeat_app, app_assoc. reflexivity.
    + exists (ib0 ++ ib), (nb0 + nb)%nat.
      assert (Hbody : Copy.body (fold_left Copy.handle (map toCopy evs)
                                    (Copy.handle b (toCopy ev)))
                      = Copy.body b ++ flat_map exported (ib0 ++ ib))
        by (rewrite Hbb, Hbb0, flat_map_app, app_assoc; reflexivity).
      split; [exact Hbody|]. split.
      * unfold Copy.outputImages. rewrite Hbody. apply Hout.
      * rewrite Hcb, Hcb0, repeat_app, app_assoc. reflexivity.
Qed.

Lemma Current_drag_last {R : Rasterizer} (a : Current.AppComponent)
    (start last : MouseEvent) (moves : list MouseEvent) :
  let pre := Current.drag start moves a in
  Current.drag start (moves ++ [last]) a = Current.onMouseMove last pre
  /\ Current.isSelecting pre = true
  /\ Current.cropStartX pre = offsetX start
  /\ Current.cropStartY pre = offsetY start
  /\ Current.canvas pre = Current.canvas a.
Proof.
  intros pre. split.
  { subst pre. unfold Current.drag, Current.run.
    rewrite map_app. cbn [fold_left]. rewrite fold_left_app. reflexivity. }
  assert (Hs : Current.isSelecting (Current.startCrop start a) = true)
    by (destruct a; reflexivity).
  destruct (Current_moves_while_selecting moves _ Hs)
    as (Hsel & Hx & Hy & _ & _ & Hcv).
  change (Current.run (map Current.OnMouseMove moves) (Current.startCrop start a))
    with pre in Hsel, Hx, Hy, Hcv.
  rewrite Hx, Hy, Hcv. destruct a. repeat split. exact Hsel.
Qed.

Lemma Copy_drag_last {R : Rasterizer} (b : Copy.AppComponent)
    (start last : MouseEvent) (moves : list MouseEvent) :
  let pre := Copy.drag start moves b in
  Copy.drag start (moves ++ [last]) b = Copy.onMouseMove last pre
  /\ Copy.isSelecting pre = true
  /\ Copy.cropStartX pre = offsetX start
  /\ Copy.cropStartY pre = offsetY start
  /\ Copy.canvas pre = Copy.canvas b.
Proof.
  intros pre. split.
  { subst pre. unfold Copy.drag, Copy.run.
    rewrite map_app. cbn [fold_left]. rewrite fold_left_app. reflexivity. }
  assert (Hs : Copy.isSelecting (Copy.startCrop start b) = true)
    by (destruct b; reflexivity).
  destruct (Copy_moves_while_selecting moves _ Hs)
    as (Hsel & Hx & Hy & _ & _ & Hcv).
  change (Copy.run (map Copy.OnMouseMove moves) (Copy.startCrop start b))
    with pre in Hsel, Hx, Hy, Hcv.
  rewrite Hx, Hy, Hcv. destruct b. repeat split. exact Hsel.
Qed.

(** X17.  While the mouse is down, the crop rectangle is fixed by two
    points alone: it starts where the mouse went down and its width and
    height are the offsets of the last mouse-move from there, of either
    sign; the mouse-moves in between leave no trace in it.  The displayed
    canvas carries one outline, that of this rectangle, stroked on the
    redrawn page.  Both versions. *)
Theorem drag_rectangle_from_endpoints {R : Rasterizer}
    (a : Current.AppComponent) (b : Copy.AppComponent)
    (start last : MouseEvent) (moves : list MouseEvent) :
  (Current.cropRect (Current.drag start (moves ++ [last]) a)
   = (offsetX start, offsetY start,
      offsetX last - offsetX start, offsetY last - offsetY start)
   /\ Current.isSelecting (Current.drag start (moves ++ [last]) a) = true
   /\ Current.pdfCanvas (Current.drag start (moves ++ [last]) a)
      = strokeRect (offsetX start) (offsetY start)
          (offsetX last - offsetX start) (offsetY last - offsetY start) "red" 2
          (drawImage (Current.canvas a)
             (clearAll (Current.pdfCanvas (Current.drag start moves a)))))
  /\ (Copy.cropRect (Copy.drag start (moves ++ [last]) b)
      = (offsetX start, offsetY start,
         offsetX last - offsetX start, offsetY last - offsetY start)
      /\ Copy.isSelecting (Copy.drag start (moves ++ [last]) b) = true
      /\ Copy.pdfCanvas (Copy.drag start (moves ++ [last]) b)
         = strokeRect (offsetX start) (offsetY start)
             (offsetX last - offsetX start) (offsetY last - offsetY start) "red" 2
             (drawImage (Copy.canvas b)
                (clearAll (Copy.pdfCanvas (Copy.drag start moves b))))).
Proof.
  split.
  - destruct (Current_drag_last a start last moves) as (Hlast & Hsel & Hx & Hy & Hcv).
    destruct (Current_move_while_selecting last _ Hsel)
      as (Hsel' & Hx' & Hy' & Hw' & Hh' & _ & _ & _ & Hpc).
    rewrite Hlast. unfold Current.cropRect.
    rewrite Hx', Hy', Hw', Hh', Hpc, Hx, Hy, Hcv.
    repeat split. exact Hsel'.
  - destruct (Copy_drag_last b start last moves) as (Hlast & Hsel & Hx & Hy & Hcv).
    destruct (Copy_move_while_selecting last _ Hsel)
      as (Hsel' & Hx' & Hy' & Hw' & Hh' & _ & _ & _ & Hpc).
    rewrite Hlast. unfold Copy.cropRect.
    rewrite Hx', Hy', Hw', Hh', Hpc, Hx, Hy, Hcv.
    repeat split. exact Hsel'.
Qed.
